(** * addok debug console: command dispatch and index introspection

    A shallow embedding of [addok/debug.py] (class [Cli] and its helper
    functions) together with the properties of its dispatcher, its
    introspection commands and its read loop.

    Conventions of the embedding.
    - Python [str] values are Rocq [string]s; case conversion acts on the
      ASCII letters.  Values read from the store are [bytes] in the source
      and are decoded before use; here [decode] is the identity.
    - A command runs in a writer/error monad [M]: it appends events to a
      trace (printed lines and calls to collaborators, in program order)
      and either returns or raises a Python exception.
    - The collaborators of the module (tokenizer, search engine, string
      similarity, geohash decoder, key constructors, number parsing and
      formatting) are the fields of the class [Collaborators]; the store
      is a concrete record of finite maps with the read operations of the
      Redis commands the module calls. *)

From Stdlib Require Import String Ascii ZArith Lia Sorted.
From stdpp Require Import base option list gmap strings.

Set Warnings "-register-all".


(** ** Python string operations *)

Module PyStr.

Definition nl : string := String (ascii_of_nat 10) EmptyString.
Definition esc : string := String (ascii_of_nat 27) EmptyString.

(** [len(s)] *)
Definition len (s : string) : nat := String.length s.

(** [s[n:]] *)
Fixpoint drop (n : nat) (s : string) : string :=
  match n, s with
  | O, _ => s
  | S _, EmptyString => EmptyString
  | S k, String _ s' => drop k s'
  end.

(** [p] is a prefix of [s] *)
Fixpoint is_prefix (p s : string) : bool :=
  match p with
  | EmptyString => true
  | String a p' =>
      match s with
      | EmptyString => false
      | String b s' => Ascii.eqb a b && is_prefix p' s'
      end
  end.

(** [s.startswith(p)] *)
Definition startswith (s p : string) : bool := is_prefix p s.

(** [s.startswith(tuple(ps))] *)
Definition startswith_any (s : string) (ps : list string) : bool :=
  existsb (startswith s) ps.

(** [s.partition(sep)] for a non-empty [sep]: the text before and after
    the first occurrence of [sep], or [None] when there is none. *)
Fixpoint partition (sep s : string) : option (string * string) :=
  if is_prefix sep s then Some (EmptyString, drop (len sep) s)
  else match s with
       | EmptyString => None
       | String c s' =>
           match partition sep s' with
           | Some (b, a) => Some (String c b, a)
           | None => None
           end
       end.

(** [sep in s] *)
Definition contains (sep s : string) : bool :=
  match partition sep s with Some _ => true | None => false end.

(** [s.count(sep)], the number of non-overlapping occurrences, scanning
    from the left; [skip] characters of a match are still to be passed. *)
Fixpoint count_from (sep : string) (skip : nat) (s : string) : nat :=
  match s with
  | EmptyString => 0
  | String _ s' =>
      match skip with
      | S k => count_from sep k s'
      | O => if is_prefix sep s
             then S (count_from sep (len sep - 1) s')
             else count_from sep 0 s'
      end
  end.

Definition count (sep s : string) : nat := count_from sep 0 s.

(** [s.split(sep)] for a non-empty [sep]: a left-to-right scan; [cur] is
    the piece being built and [skip] the number of characters of the
    separator just matched that are still to be passed. *)
Fixpoint split_from (sep : string) (skip : nat) (cur s : string)
  : list string :=
  match s with
  | EmptyString => [cur]
  | String c s' =>
      match skip with
      | S k => split_from sep k cur s'
      | O => if is_prefix sep s
             then cur :: split_from sep (len sep - 1) EmptyString s'
             else split_from sep 0 (cur +:+ String c EmptyString) s'
      end
  end.

Definition split (sep s : string) : list string :=
  split_from sep 0 EmptyString s.

(** [s.split(sep, 1)] *)
Definition split1 (sep s : string) : list string :=
  match partition sep s with
  | Some (b, a) => [b; a]
  | None => [s]
  end.

(** Whitespace as [str.split()] and [str.isspace] see it, for the code
    points below 256. *)
Definition is_space (c : ascii) : bool :=
  let n := nat_of_ascii c in
  ((9 <=? n) && (n <=? 13)) || ((28 <=? n) && (n <=? 32))
  || (n =? 133) || (n =? 160).

(** [s.split()]: the maximal runs of non-whitespace characters. *)
Fixpoint words_from (cur s : string) : list string :=
  match s with
  | EmptyString =>
      match cur with EmptyString => [] | _ => [cur] end
  | String c s' =>
      if is_space c then
        match cur with
        | EmptyString => words_from EmptyString s'
        | _ => cur :: words_from EmptyString s'
        end
      else words_from (cur +:+ String c EmptyString) s'
  end.

Definition words (s : string) : list string := words_from EmptyString s.

(** [sep.join(l)] *)
Fixpoint join (sep : string) (l : list string) : string :=
  match l with
  | [] => EmptyString
  | [x] => x
  | x :: rest => x +:+ sep +:+ join sep rest
  end.

(** [s.replace(old, new)] for a non-empty [old]: the same scan as
    [split], the pieces joined by [new]. *)
Definition replace (old new s : string) : string := join new (split old s).

(** [c * n] for a one-character string *)
Fixpoint repeat (c : string) (n : nat) : string :=
  match n with O => EmptyString | S k => c +:+ repeat c k end.

Definition lower_ascii (c : ascii) : ascii :=
  let n := nat_of_ascii c in
  if (65 <=? n) && (n <=? 90) then ascii_of_nat (n + 32) else c.

Definition upper_ascii (c : ascii) : ascii :=
  let n := nat_of_ascii c in
  if (97 <=? n) && (n <=? 122) then ascii_of_nat (n - 32) else c.

Fixpoint map_chars (f : ascii -> ascii) (s : string) : string :=
  match s with
  | EmptyString => EmptyString
  | String c s' => String (f c) (map_chars f s')
  end.

(** [s.lower()] and [s.upper()] *)
Definition lower : string -> string := map_chars lower_ascii.
Definition upper : string -> string := map_chars upper_ascii.

End PyStr.

(** ** Values, exceptions and the trace *)

(** Python [float]: the type of the numbers and the [float(str)]
    constructor ([None] is a [ValueError]); [float_leb] is [<=]. *)
Class PyFloat := {
  float : Type;
  float_of_str : string -> option float;
  float_leb : float -> float -> bool
}.

(** The exceptions a command can raise. [ResponseError] is the store
    refusing an operation on a key of another type, [DecodeError] the
    geohash decoder refusing its input. *)
Inductive exn :=
| ValueError | IndexError | KeyError | TypeError | AttributeError
| ResponseError | DecodeError
| KeyboardInterrupt | EOFError.

(** The argument [handle_command] hands to a command: a [str], or [None]
    when the line holds the keyword alone. *)
Definition pyarg := option string.

Section Values.
Context `{PyFloat}.

(** [core.SearchResult]: what the console reads of a result. *)
Record SearchResult := {
  sr_str : string;       (* str(result) *)
  sr_id : string;
  sr_score : float;
  sr_distance : float;
  sr_lat : string;
  sr_lon : string
}.

(** The values the console formats with [str()]. *)
Inductive pyobj :=
| PNone
| PStr (s : string)
| PBytes (b : string)
| PInt (n : Z)
| PFloat (x : float)
| PList (l : list pyobj)
| PSet (l : list pyobj)
| PDict (l : list (pyobj * pyobj))
| PResult (r : SearchResult).

(** [geohash.bbox] result *)
Record bbox := { bb_n : float; bb_s : float; bb_e : float; bb_w : float }.

(** What [json.dumps] is given. *)
Inductive json :=
| JStr (s : string)
| JNum (x : float)
| JArr (l : list json)
| JObj (l : list (string * json)).

(** The calls to [print], each with its arguments (the line written is
    the arguments joined by a space), and the calls to collaborators, in
    program order. The text of the elapsed-time line depends on the wall
    clock and is left out. *)
Inductive event :=
| Prompt (text : string)
| Print (args : list string)
| Print_elapsed
| Call_search (query : string) (verbose : bool) (lat lon : option float)
| Call_reverse (lat lon : float)
| Call_preprocess_query (s : pyarg)
| Call_token_frequency (token : string)
| Call_autocomplete (token : string)
| Call_compare_ngrams (one two : string)
| Call_SearchResult (key : string)
| Call_geohash_bbox (geoh : pyarg)
| DB_hgetall (key : string)
| DB_zscore (key member : string)
| DB_zrevrank (key member : string)
| DB_zrevrange (key : string) (start stop : Z)
| DB_smembers (key : string)
| DB_type (key : string)
| DB_info.

Inductive result (A : Type) :=
| Returns (a : A)
| Raises (e : exn).
Global Arguments Returns {A} a.
Global Arguments Raises {A} e.

(** A computation: the events it produced and how it ended. *)
Record M (A : Type) := Run { trace : list event; outcome : result A }.
Global Arguments Run {A} trace outcome.
Global Arguments trace {A} m.
Global Arguments outcome {A} m.

Definition ret {A} (a : A) : M A := Run [] (Returns a).
Definition raise {A} (e : exn) : M A := Run [] (Raises e).
Definition emit (e : event) : M unit := Run [e] (Returns tt).

Definition bind {A B} (m : M A) (k : A -> M B) : M B :=
  match outcome m with
  | Returns a => Run (trace m ++ trace (k a)) (outcome (k a))
  | Raises e => Run (trace m) (Raises e)
  end.

Global Instance M_ret : MRet M := @ret.
Global Instance M_bind : MBind M := fun A B k m => bind m k.

(** [for x in l: body(x)] *)
Fixpoint for_each {A} (l : list A) (body : A -> M unit) : M unit :=
  match l with
  | [] => ret tt
  | x :: rest => body x ;; for_each rest body
  end.

(** [[f(x) for x in l]] *)
Fixpoint comprehension {A B} (l : list A) (f : A -> M B) : M (list B) :=
  match l with
  | [] => ret []
  | x :: rest => y ← f x; ys ← comprehension rest f; ret (y :: ys)
  end.

(** [l[i]] *)
Definition index {A} (l : list A) (i : nat) : M A :=
  match l !! i with
  | Some x => ret x
  | None => raise IndexError
  end.

(** [d[k]] on a mapping with [str] keys *)
Fixpoint assoc {A} (k : string) (d : list (string * A)) : option A :=
  match d with
  | [] => None
  | (k', v) :: rest => if String.eqb k k' then Some v else assoc k rest
  end.

Definition getitem {A} (d : list (string * A)) (k : string) : M A :=
  match assoc k d with
  | Some v => ret v
  | None => raise KeyError
  end.

(** ** The store (Redis) *)

(** Modelled from the spec: the store behind [core.DB], the Index Client
    of the external interfaces. A key holds a hash, a sorted set, a set or
    a value of another type. *)
Inductive value :=
| VHash (fields : list (string * string))
| VZset (members : list (string * float))
| VSet (members : list string)
| VOther (type_name : string).

(** Modelled from the spec: the keys of the store, and the statistics
    [server_info] returns. *)
Record Store := {
  keyspace : gmap string value;
  server_info : list (string * pyobj)
}.

(** Modelled from the spec: a posting list is ordered by score, the
    order of equal scores being the store's. [x] comes before [y] from
    the highest to the lowest score; members of equal score go by
    descending byte order, as in Redis. *)
Definition zbefore (x y : string * float) : bool :=
  if float_leb y.2 x.2
  then (if float_leb x.2 y.2 then String.leb y.1 x.1 else true)
  else false.

Fixpoint zinsert (x : string * float) (l : list (string * float))
  : list (string * float) :=
  match l with
  | [] => [x]
  | y :: rest =>
      if zbefore x y then x :: y :: rest else y :: zinsert x rest
  end.

(** Modelled from the spec: a sorted set from the highest to the lowest
    score, the order in which rank and range queries see it. *)
Definition zdesc (l : list (string * float)) : list (string * float) :=
  foldr zinsert [] l.

(** Modelled from the spec: [sorted_set_range_desc], the inclusive rank
    range [start..stop] of Redis, negative indices counting from the
    end. *)
Definition zslice {A} (start stop : Z) (l : list A) : list A :=
  let n := Z.of_nat (length l) in
  let start := if (start <? 0)%Z then Z.max 0 (n + start) else start in
  let stop := if (stop <? 0)%Z then (n + stop)%Z else stop in
  let stop := Z.min stop (n - 1) in
  if (stop <? start)%Z then []
  else take (Z.to_nat (stop - start + 1)) (drop (Z.to_nat start) l).

(** Modelled from the spec: the 0-based position and the score of a
    member in a list of entries, for the rank and score queries. *)
Fixpoint zfind (member : string) (l : list (string * float)) (i : Z)
  : option (Z * float) :=
  match l with
  | [] => None
  | (m, sc) :: rest =>
      if String.eqb member m then Some (i, sc) else zfind member rest (i + 1)
  end.

End Values.

(** ** Collaborators *)

(** What [debug.py] imports from the rest of the package and from the
    libraries, with the store the commands read. *)
Class Collaborators `{PyFloat} := {
  py_str : pyobj -> string;                 (* str(x), x not a str *)
  json_dumps : json -> string;
  preprocess_query : pyarg -> list string;  (* pipeline.preprocess_query *)
  search : string -> bool -> option float -> option float
           -> list SearchResult;            (* core.search *)
  reverse : float -> float -> list SearchResult;
  document_key : pyarg -> string;
  token_key : string -> string;
  pair_key : string -> string;
  token_frequency : string -> pyobj;
  autocomplete_keys : string -> list string; (* Token(s).autocomplete() *)
  make_SearchResult : string -> SearchResult;
  compare_ngrams : string -> string -> pyobj;
  haversine_distance : float * float -> float * float -> float;
  km_to_score : float -> float;
  geohash_bbox : pyarg -> option bbox;
  DB : Store
}.

Section Console.
Context `{Collaborators}.

(** [str(x)] *)
Definition str (x : pyobj) : string :=
  match x with
  | PStr s => s
  | PResult r => sr_str r
  | _ => py_str x
  end.

(** [float(s)] *)
Definition pyfloat (s : string) : M float :=
  match float_of_str s with
  | Some x => ret x
  | None => raise ValueError
  end.

(** [print(a, b, ...)] *)
Definition print (args : list string) : M unit := emit (Print args).

(** *** Store reads, as the Redis client performs them *)

Definition lookup_key (key : string) : option value := keyspace DB !! key.

(** Modelled from the spec: [get_hash], HGETALL; an absent key reads as
    the empty mapping, a key of another type is refused. The other reads
    below follow the same pattern for ZSCORE, ZREVRANK, ZREVRANGE,
    SMEMBERS, TYPE and INFO. *)
Definition hgetall (key : string) : M (list (string * string)) :=
  emit (DB_hgetall key) ;;
  match lookup_key key with
  | None => ret []
  | Some (VHash fields) => ret fields
  | Some _ => raise ResponseError
  end.

Definition zmembers (key : string) : M (list (string * float)) :=
  match lookup_key key with
  | None => ret []
  | Some (VZset members) => ret members
  | Some _ => raise ResponseError
  end.

Definition zscore (key member : string) : M (option float) :=
  emit (DB_zscore key member) ;;
  members ← zmembers key;
  ret (snd <$> zfind member (zdesc members) 0).

Definition zrevrank (key member : string) : M (option Z) :=
  emit (DB_zrevrank key member) ;;
  members ← zmembers key;
  ret (fst <$> zfind member (zdesc members) 0).

Definition zrevrange (key : string) (start stop : Z)
  : M (list (string * float)) :=
  emit (DB_zrevrange key start stop) ;;
  members ← zmembers key;
  ret (zslice start stop (zdesc members)).

Definition smembers (key : string) : M (list string) :=
  emit (DB_smembers key) ;;
  match lookup_key key with
  | None => ret []
  | Some (VSet members) => ret members
  | Some _ => raise ResponseError
  end.

Definition db_type (key : string) : M string :=
  emit (DB_type key) ;;
  ret match lookup_key key with
      | None => "none"
      | Some (VHash _) => "hash"
      | Some (VZset _) => "zset"
      | Some (VSet _) => "set"
      | Some (VOther t) => t
      end.

Definition db_info : M (list (string * pyobj)) :=
  emit DB_info ;; ret (server_info DB).

(** *** Module-level helpers *)

Definition doc_by_id (_id : pyarg) : M (list (string * string)) :=
  hgetall (document_key _id).

Definition indexed_string (s : pyarg) : M (list string) :=
  emit (Call_preprocess_query s) ;; ret (preprocess_query s).

Definition word_frequency (word : pyarg) : M pyobj :=
  tokens ← indexed_string word;
  token ← index tokens 0;
  emit (Call_token_frequency token) ;;
  ret (token_frequency token).

Inductive color := c_red | c_green | c_yellow | c_blue | c_magenta
                 | c_cyan | c_white | c_reset.

Definition COLORS (c : color) : string :=
  match c with
  | c_red => "31" | c_green => "32" | c_yellow => "33" | c_blue => "34"
  | c_magenta => "35" | c_cyan => "36" | c_white => "37" | c_reset => "39"
  end.

Definition colorText (s : pyobj) (c : color) : string :=
  PyStr.esc +:+ "[" +:+ COLORS c +:+ "m" +:+ str s
  +:+ PyStr.esc +:+ "[" +:+ COLORS c_reset +:+ "m".

Definition red (s : pyobj) := colorText s c_red.
Definition green (s : pyobj) := colorText s c_green.
Definition yellow (s : pyobj) := colorText s c_yellow.
Definition blue (s : pyobj) := colorText s c_blue.
Definition magenta (s : pyobj) := colorText s c_magenta.
Definition cyan (s : pyobj) := colorText s c_cyan.
Definition white (s : pyobj) := colorText s c_white.

(** *** class Cli *)

(** A command method, called with the one argument of [handle_command]. *)
Definition method := pyarg -> M unit.

(** The center clause of [_search]: the query to forward and the
    optional center. *)
Definition parse_center (query : string)
  : M (string * option float * option float) :=
  if PyStr.contains "CENTER" query then
    match PyStr.split "CENTER" query with
    | [query; center] =>
        match PyStr.words center with
        | [lat; lon] =>
            lat ← pyfloat lat;
            lon ← pyfloat lon;
            ret (query, Some lat, Some lon)
        | _ => raise ValueError
        end
    | _ => raise ValueError
    end
  else ret (query, None, None).

Definition show_result (result : SearchResult) : string :=
  white (PResult result) +:+ " (" +:+ blue (PFloat (sr_score result))
  +:+ " | " +:+ blue (PStr (sr_id result)) +:+ ")".

Definition _search (query : pyarg) (verbose : bool) : M unit :=
  match query with
  | None => raise TypeError
  | Some query =>
      '(query, lat, lon) ← parse_center query;
      emit (Call_search query verbose lat lon) ;;
      for_each (search query verbose lat lon)
        (fun result => print [show_result result]) ;;
      emit Print_elapsed
  end.

Definition do_search : method := fun query => _search query false.

Definition do_explain : method := fun query => _search query true.

Definition do_tokenize : method := fun string =>
  tokens ← indexed_string string;
  print [white (PStr (PyStr.join " " tokens))].

(** [housenumbers[key] = value] *)
Fixpoint dict_set {A} (key : string) (v : A) (d : list (string * A))
  : list (string * A) :=
  match d with
  | [] => [(key, v)]
  | (k, x) :: rest =>
      if String.eqb key k then (k, v) :: rest
      else (k, x) :: dict_set key v rest
  end.

Definition str_dict (d : list (string * string)) : pyobj :=
  PDict (map (fun kv => (PStr kv.1, PStr kv.2)) d).

(** The loop of [do_get] over the fields of the document. *)
Fixpoint get_fields (items housenumbers : list (string * string))
  : M (list (string * string)) :=
  match items with
  | [] => ret housenumbers
  | (key, value) :: rest =>
      if PyStr.startswith key "h|"
      then get_fields rest (dict_set key value housenumbers)
      else print [white (PStr key); magenta (PStr value)] ;;
           get_fields rest housenumbers
  end.

Definition do_get : method := fun _id =>
  doc ← doc_by_id _id;
  housenumbers ← get_fields doc [];
  match housenumbers with
  | [] => ret tt
  | _ => print [white (PStr "housenumbers"); magenta (str_dict housenumbers)]
  end.

Definition do_frequency : method := fun word =>
  n ← word_frequency word;
  print [white n].

Definition do_autocomplete : method := fun s =>
  tokens ← indexed_string s;
  s ← index tokens 0;
  emit (Call_autocomplete s) ;;
  keys ← comprehension (autocomplete_keys s)
           (fun k => index (PyStr.split "|" k) 1);
  print [white (PList (PStr <$> keys))] ;;
  print [magenta (PStr ("(" +:+ str (PInt (Z.of_nat (length keys)))
                        +:+ " elements)"))].

Definition opt_float (x : option float) : pyobj :=
  match x with Some v => PFloat v | None => PNone end.

Definition opt_int (x : option Z) : pyobj :=
  match x with Some v => PInt v | None => PNone end.

Definition _print_field_index_details (field : string) (_id : pyarg)
  : M unit :=
  tokens ← indexed_string (Some field);
  for_each tokens (fun token =>
    sc ← zscore (token_key token) (document_key _id);
    rk ← zrevrank (token_key token) (document_key _id);
    print [white (PStr token); blue (opt_float sc); blue (opt_int rk)]).

Definition do_index : method := fun _id =>
  doc ← doc_by_id _id;
  name ← getitem doc "name";
  _print_field_index_details name _id ;;
  postcode ← getitem doc "postcode";
  _print_field_index_details postcode _id ;;
  city ← getitem doc "city";
  _print_field_index_details city _id ;;
  context ← getitem doc "context";
  _print_field_index_details context _id.

Definition show_best (entry : string * float) : M unit :=
  emit (Call_SearchResult entry.1) ;;
  let result := make_SearchResult entry.1 in
  print [white (PResult result); blue (PFloat entry.2);
         blue (PStr (sr_id result))].

Definition do_bestscore : method := fun word =>
  tokens ← indexed_string word;
  token ← index tokens 0;
  let key := token_key token in
  entries ← zrevrange key 0 20;
  for_each entries show_best.

Definition show_reverse (r : SearchResult) : string :=
  white (PResult r) +:+ " (" +:+ blue (PFloat (sr_score r)) +:+ " | "
  +:+ blue (PFloat (sr_distance r)) +:+ " km | "
  +:+ blue (PStr (sr_id r)) +:+ ")".

Definition do_reverse : method := fun latlon =>
  match latlon with
  | None => raise AttributeError
  | Some latlon =>
      match PyStr.words latlon with
      | [lat; lon] =>
          lat ← pyfloat lat;
          lon ← pyfloat lon;
          emit (Call_reverse lat lon) ;;
          for_each (reverse lat lon) (fun r => print [show_reverse r])
      | _ => raise ValueError
      end
  end.

(** [tokens.sort()] on [str] values *)
Fixpoint sort_insert (x : string) (l : list string) : list string :=
  match l with
  | [] => [x]
  | y :: rest =>
      if String.leb x y then x :: y :: rest else y :: sort_insert x rest
  end.

Definition sort (l : list string) : list string := foldr sort_insert [] l.

Definition do_pair : method := fun word =>
  tokens ← indexed_string word;
  word ← index tokens 0;
  let key := pair_key word in
  tokens ← smembers key;
  let tokens := sort tokens in
  print [white (PList (PStr <$> tokens))] ;;
  print [magenta (PStr ("(Total: " +:+ str (PInt (Z.of_nat (length tokens)))
                        +:+ ")"))].

Definition malformed_string : string :=
  "Malformed string. Use | between the two strings.".

Definition do_distance : method := fun s =>
  match s with
  | None => raise AttributeError
  | Some s =>
      let s := PyStr.split "|" s in
      if negb (length s =? 2) then print [red (PStr malformed_string)]
      else
        match s with
        | [one; two] =>
            emit (Call_compare_ngrams one two) ;;
            print [white (compare_ngrams one two)]
        | _ => raise ValueError
        end
  end.

Definition dbinfo_keys : list string :=
  ["keyspace_misses"; "keyspace_hits"; "used_memory_human";
   "total_commands_processed"; "total_connections_received";
   "connected_clients"].

(** [d[k]] on a value that should be a mapping *)
Fixpoint dict_assoc (k : string) (d : list (pyobj * pyobj)) : option pyobj :=
  match d with
  | [] => None
  | (PStr k', v) :: rest =>
      if String.eqb k k' then Some v else dict_assoc k rest
  | _ :: rest => dict_assoc k rest
  end.

Definition subscript (d : pyobj) (k : string) : M pyobj :=
  match d with
  | PDict l =>
      match dict_assoc k l with
      | Some v => ret v
      | None => raise KeyError
      end
  | _ => raise TypeError
  end.

Definition do_dbinfo : method := fun _ =>
  info ← db_info;
  for_each dbinfo_keys (fun key =>
    v ← getitem info key;
    print [white (PStr key) +:+ ": " +:+ blue v]) ;;
  db0 ← getitem info "db0";
  keys ← subscript db0 "keys";
  print [white (PStr "nb keys") +:+ ": " +:+ blue keys].

(** The key the Redis client sends for the argument it is given. *)
Definition redis_key (key : pyarg) : string :=
  match key with Some k => k | None => "None" end.

Definition bytes_dict (d : list (string * string)) : pyobj :=
  PDict (map (fun kv => (PBytes kv.1, PBytes kv.2)) d).

Definition do_dbkey : method := fun key =>
  let key := redis_key key in
  type_ ← db_type key;
  out ← (if String.eqb type_ "set" then
           members ← smembers key; ret (PSet (PBytes <$> members))
         else if String.eqb type_ "hash" then
           fields ← hgetall key; ret (bytes_dict fields)
         else ret (PStr ("Unsupported type " +:+ type_)));
  print ["type:"; magenta (PStr type_)] ;;
  print ["value:"; white out].

Definition malformed_query : string := "Malformed query. Use: ID lat lon".

Definition do_geodistance : method := fun s =>
  match PyStr.words <$> s with
  | Some [_id; lat; lon] =>
      emit (Call_SearchResult (document_key (Some _id))) ;;
      let result := make_SearchResult (document_key (Some _id)) in
      lat ← pyfloat lat;
      lon ← pyfloat lon;
      let center := (lat, lon) in
      rlat ← pyfloat (sr_lat result);
      rlon ← pyfloat (sr_lon result);
      let km := haversine_distance (rlat, rlon) center in
      let score := km_to_score km in
      print ["km: " +:+ white (PFloat km) +:+ " | score: "
             +:+ blue (PFloat score)]
  | _ => print [malformed_query]
  end.

(** The ring [do_geohashtogeojson] builds from a bounding box. *)
Definition ring (b : bbox) : list (list float) :=
  [[bb_w b; bb_n b];
   [bb_e b; bb_n b];
   [bb_e b; bb_s b];
   [bb_w b; bb_s b];
   [bb_w b; bb_n b]].

Definition geojson (b : bbox) : json :=
  JObj [("type", JStr "Polygon");
        ("coordinates", JArr [JArr ((fun p => JArr (JNum <$> p)) <$> ring b)])].

Definition do_geohashtogeojson : method := fun geoh =>
  emit (Call_geohash_bbox geoh) ;;
  match geohash_bbox geoh with
  | None => raise DecodeError
  | Some b => print [white (PStr (json_dumps (geojson b)))]
  end.

(** The functions of the class, as [inspect.getmembers] lists them (by
    name), each with its docstring. *)
Definition indent : string := PyStr.nl +:+ PyStr.repeat " " 8.

Definition Cli_functions : list (string * option string) :=
  [("__call__", None);
   ("__init__", None);
   ("_init_history_file", None);
   ("_inspect_commands", None);
   ("_print_field_index_details", None);
   ("_search", None);
   ("completer", None);
   ("do_autocomplete", Some "Shows autocomplete results for a given token.");
   ("do_bestscore", Some ("Return document linked to word with higher score."
                          +:+ indent +:+ "BESTSCORE lilas"));
   ("do_dbinfo", Some "Print some useful infos from Redis DB.");
   ("do_dbkey", Some ("Print raw content of a DB key."
                      +:+ indent +:+ "DBKEY g|u09tyzfe"));
   ("do_distance",
     Some ("Print the distance score between two strings. Use | as separator."
           +:+ indent +:+ "DISTANCE rue des lilas|porte des lilas"));
   ("do_explain", Some ("Issue a search with debug info:"
                        +:+ indent +:+ "EXPLAIN rue des Lilas"));
   ("do_frequency", Some ("Return word frequency in index."
                          +:+ indent +:+ "FREQUENCY lilas"));
   ("do_geodistance", Some ("Compute geodistance from a result to a point."
                            +:+ indent +:+ "GEODISTANCE 772210180J 48.1234 2.9876"));
   ("do_geohashtogeojson",
     Some ("Build GeoJSON corresponding to geohash given as parameter."
           +:+ indent +:+ "GEOHASHTOGEOJSON u09vej04"));
   ("do_get", Some ("Get document from index with its id."
                    +:+ indent +:+ "GET 772210180J"));
   ("do_help", Some "Display this help message.");
   ("do_index", Some ("Get index details for a document by its id."
                      +:+ indent +:+ "INDEX 772210180J"));
   ("do_pair", Some ("See all token associated with a given token."
                     +:+ indent +:+ "PAIR lilas"));
   ("do_reverse", Some ("Do a reverse search. Args: lat lon."
                        +:+ indent +:+ "REVERSE 48.1234 2.9876"));
   ("do_search", Some ("Issue a search (default command, can be omitted):"
                       +:+ indent +:+ "SEARCH rue des Lilas"));
   ("do_tokenize",
     Some ("Inspect how a string is tokenized before being indexed."
           +:+ indent +:+ "TOKENIZE Rue des Lilas"));
   ("handle_command", None);
   ("prompt", None);
   ("save_history", None)].

(** [_inspect_commands]: the registry, keyword to description. *)
Fixpoint _inspect_commands (members : list (string * option string))
  (commands : list (string * string)) : list (string * string) :=
  match members with
  | [] => commands
  | (name, doc) :: rest =>
      if PyStr.startswith name "do_"
      then _inspect_commands rest
             (dict_set (PyStr.upper (PyStr.drop 3 name))
                       (default EmptyString doc) commands)
      else _inspect_commands rest commands
  end.

Definition COMMANDS : list (string * string) :=
  _inspect_commands Cli_functions [].

Definition do_help : method := fun _ =>
  for_each COMMANDS (fun '(name, doc) =>
    print [yellow (PStr name);
           cyan (PStr (PyStr.replace PyStr.nl EmptyString
                         (PyStr.replace (PyStr.repeat " " 8) " " doc)))]).

(** The attributes of a [Cli] object whose name starts with [do_]; every
    name [handle_command] looks up has that form. *)
Definition Cli_methods : list (string * method) :=
  [("do_autocomplete", do_autocomplete); ("do_bestscore", do_bestscore);
   ("do_dbinfo", do_dbinfo); ("do_dbkey", do_dbkey);
   ("do_distance", do_distance); ("do_explain", do_explain);
   ("do_frequency", do_frequency); ("do_geodistance", do_geodistance);
   ("do_geohashtogeojson", do_geohashtogeojson); ("do_get", do_get);
   ("do_help", do_help); ("do_index", do_index); ("do_pair", do_pair);
   ("do_reverse", do_reverse); ("do_search", do_search);
   ("do_tokenize", do_tokenize)].

Definition getattr (fx_name : string) : option method :=
  assoc fx_name Cli_methods.

Definition keys {A} (d : list (string * A)) : list string := fst <$> d.

Definition handle_command (command_line : string) : M unit :=
  match command_line with
  | EmptyString => ret tt
  | _ =>
      '(action, arg) ←
        (if negb (PyStr.startswith_any command_line (keys COMMANDS))
         then ret ("SEARCH", Some command_line)
         else if 0 <? PyStr.count " " command_line then
           match PyStr.split1 " " command_line with
           | [action; arg] => ret (action, Some arg)
           | _ => raise ValueError
           end
         else ret (command_line, None));
      let fx_name := "do_" +:+ PyStr.lower action in
      match getattr fx_name with
      | Some fx => fx arg
      | None => print [red (PStr ("No command for " +:+ command_line))]
      end
  end.

(** What [prompt] meets: a line typed, or an interrupt; the end of the
    list is the end of the input. *)
Inductive input := Line (command : string) | Interrupt.

Definition farewell : M unit :=
  print [red (PStr (PyStr.nl +:+ "Exiting, bye!"))].

Definition separator : M unit :=
  print [yellow (PStr (PyStr.repeat "-" 80))].

(** The [while 1] loop of [__call__]. *)
Fixpoint loop (inputs : list input) : M unit :=
  emit (Prompt "> ") ;;
  match inputs with
  | [] => farewell
  | Interrupt :: _ => farewell
  | Line command :: rest =>
      let r := handle_command command in
      match outcome r with
      | Returns _ => Run (trace r) (Returns tt) ;; separator ;; loop rest
      | Raises KeyboardInterrupt | Raises EOFError =>
          Run (trace r) (Returns tt) ;; farewell
      | Raises e => Run (trace r) (Raises e)
      end
  end.

Definition __call__ (inputs : list input) : M unit :=
  do_help None ;; loop inputs.

End Console.

(** ** What the commands are observed to do *)

Section Observations.
Context `{Collaborators}.

(** What [handle_command] does with an action already split off. *)
Definition dispatch (command_line action : string) (arg : pyarg) : M unit :=
  match getattr ("do_" +:+ PyStr.lower action) with
  | Some fx => fx arg
  | None => print [red (PStr ("No command for " +:+ command_line))]
  end.

(** The action [handle_command] takes from a line that begins with a
    keyword: the text before the first space, or the whole line. *)
Definition action_of (line : string) : string :=
  hd line (PyStr.split1 " " line).

(** The mapping HGETALL returns for a document: empty when the key is
    absent, none when the key holds something else than a hash. *)
Definition document (_id : pyarg) : option (list (string * string)) :=
  match lookup_key (document_key _id) with
  | None => Some []
  | Some (VHash fields) => Some fields
  | Some _ => None
  end.

(** The posting list of a token: empty when the key is absent. *)
Definition posting_list (key : string) : option (list (string * float)) :=
  match lookup_key key with
  | None => Some []
  | Some (VZset members) => Some members
  | Some _ => None
  end.

Definition is_housenumber (field : string * string) : bool :=
  PyStr.startswith field.1 "h|".

Definition housenumbers_of (doc : list (string * string))
  : list (string * string) :=
  foldl (fun h field => dict_set field.1 field.2 h) []
        (List.filter is_housenumber doc).

Definition plain_fields (doc : list (string * string))
  : list (string * string) :=
  List.filter (fun field => negb (is_housenumber field)) doc.

Definition field_print (field : string * string) : event :=
  Print [white (PStr field.1); magenta (PStr field.2)].

Definition housenumbers_print (h : list (string * string)) : list event :=
  match h with
  | [] => []
  | _ => [Print [white (PStr "housenumbers"); magenta (str_dict h)]]
  end.

(** What INDEX does for one token of a field. *)
Definition token_events (_id : pyarg) (members : list (string * float))
  (token : string) : list event :=
  [DB_zscore (token_key token) (document_key _id);
   DB_zrevrank (token_key token) (document_key _id);
   Print [white (PStr token);
          blue (opt_float (snd <$> zfind (document_key _id) (zdesc members) 0));
          blue (opt_int (fst <$> zfind (document_key _id) (zdesc members) 0))]].

Definition members_of (token : string) : list (string * float) :=
  default [] (posting_list (token_key token)).

Definition field_events (_id : pyarg) (field : string) : list event :=
  Call_preprocess_query (Some field)
  :: (preprocess_query (Some field)
        ≫= fun token => token_events _id (members_of token) token).

(** What BESTSCORE does for one entry of the range. *)
Definition best_events (entry : string * float) : list event :=
  [Call_SearchResult entry.1;
   Print [white (PResult (make_SearchResult entry.1));
          blue (PFloat entry.2);
          blue (PStr (sr_id (make_SearchResult entry.1)))]].

(** The first of two entries has the higher score, or the same. *)
Definition score_ge (a b : string * float) : Prop :=
  float_leb b.2 a.2 = true.

(** Every token key holds a sorted set, or nothing. *)
Definition token_keys_hold_sorted_sets : Prop :=
  forall token : string, is_Some (posting_list (token_key token)).

(** [<=] on the numbers compares any two of them. *)
Definition float_leb_total : Prop :=
  forall x y : float, float_leb x y = false -> float_leb y x = true.

(** The query as it is handed to the search engine, with the results
    printed and the elapsed time after them. *)
Definition forwarded (query : string) (verbose : bool)
  (lat lon : option float) : M unit :=
  emit (Call_search query verbose lat lon) ;;
  for_each (search query verbose lat lon)
    (fun result => print [show_result result]) ;;
  emit Print_elapsed.

End Observations.

(** ** Statements of the specification, as it words them *)

Section Wording.
Context `{Collaborators}.

(** The first whitespace-delimited token of a line, upper-cased. *)
Definition first_token_upper (line : string) : string :=
  PyStr.upper (hd EmptyString (PyStr.words line)).

(** A line that is empty once trimmed. *)
Fixpoint blank (s : string) : bool :=
  match s with
  | EmptyString => true
  | String c s' => PyStr.is_space c && blank s'
  end.

(** Dispatch falls back to SEARCH whenever the upper-cased first token
    of the line is not a registered keyword. *)
Definition default_search_by_first_token : Prop :=
  forall line : string,
    first_token_upper line ∉ keys COMMANDS ->
    handle_command line = do_search (Some line).

(** Input is trimmed, and a line that is then empty does nothing. *)
Definition trimmed_empty_is_noop : Prop :=
  forall line : string, blank line = true -> handle_command line = ret tt.

(** A text that is not two whitespace-separated numbers. *)
Definition not_two_floats (s : string) : Prop :=
  match PyStr.words s with
  | [lat; lon] => float_of_str lat = None \/ float_of_str lon = None
  | _ => True
  end.

(** A REVERSE argument that is not two numbers is reported inline and
    the loop goes on with the next input. *)
Definition reverse_errors_are_survived : Prop :=
  forall (s : string) (rest : list input),
    not_two_floats s ->
    exists t : list event,
      (exists args, Print args ∈ t)
      /\ loop (Line ("REVERSE " +:+ s) :: rest)
         = (emit (Prompt "> ") ;; Run t (Returns tt) ;; separator ;; loop rest).

(** GET on a document that is not in the store prints a mapping. *)
Definition get_missing_prints_a_mapping : Prop :=
  forall _id : pyarg,
    lookup_key (document_key _id) = None ->
    exists args, Print args ∈ trace (do_get _id).

End Wording.

(** ** A small index to run the console on *)

Module Demo.

Definition digit (c : ascii) : option Z :=
  let n := nat_of_ascii c in
  if (48 <=? n) && (n <=? 57) then Some (Z.of_nat (n - 48)) else None.

Fixpoint digits (s : string) (acc : Z) : option Z :=
  match s with
  | EmptyString => Some acc
  | String c s' =>
      match digit c with
      | Some d => digits s' (10 * acc + d)
      | None => None
      end
  end.

(** Integer literals stand for the numbers of this index. *)
Definition parse (s : string) : option Z :=
  match s with
  | EmptyString => None
  | _ => digits s 0
  end.

Global Instance numbers : PyFloat :=
  {| float := Z; float_of_str := parse; float_leb := Z.leb |}.

Definition tokenize (s : pyarg) : list string :=
  PyStr.words (PyStr.lower (default EmptyString s)).

Definition lilas : @SearchResult numbers :=
  {| sr_str := "rue des Lilas"; sr_id := "1"; sr_score := 7%Z;
     sr_distance := 0%Z; sr_lat := "48"; sr_lon := "2" |}.

Definition store : @Store numbers :=
  {| keyspace :=
       list_to_map
         [("d|1", VHash [("name", "rue des Lilas"); ("h|11", "48|2");
                         ("postcode", "93260"); ("city", "Les Lilas");
                         ("h|12", "48|3"); ("context", "Seine")]);
          ("w|lilas", VZset [("d|3", 2%Z); ("d|1", 7%Z); ("d|2", 5%Z)]);
          ("w|rue", VZset [("d|1", 1%Z)]);
          ("p|lilas", VSet ["rue"; "des"])];
     server_info := [] |}.

Global Instance collaborators : @Collaborators numbers :=
  {| py_str := fun _ => "<object>";
     json_dumps := fun _ => "<json>";
     preprocess_query := tokenize;
     search := fun _ _ _ _ => [lilas];
     reverse := fun _ _ => [lilas];
     document_key := fun a => "d|" +:+ default "None" a;
     token_key := fun t => "w|" +:+ t;
     pair_key := fun t => "p|" +:+ t;
     token_frequency := fun _ => PInt 1;
     autocomplete_keys := fun _ => [];
     make_SearchResult := fun _ => lilas;
     compare_ngrams := fun _ _ => PInt 1;
     haversine_distance := fun _ _ => 0%Z;
     km_to_score := fun _ => 1%Z;
     geohash_bbox := fun g =>
       match g with
       | Some "u09" => Some {| bb_n := 49%Z; bb_s := 48%Z; bb_e := 3%Z; bb_w := 2%Z |}
       | _ => None
       end;
     DB := store |}.

End Demo.

(** ** Tab completion *)

Section Completer.

(** The loop of [completer] over the keywords: [state] counts the matches
    still to be passed over. *)
Fixpoint completer_loop (cmds : list string) (text : string) (state : Z)
  : option string :=
  match cmds with
  | [] => None
  | cmd :: rest =>
      if PyStr.startswith cmd (PyStr.upper text) then
        if (state =? 0)%Z then Some (cmd +:+ " ")
        else completer_loop rest text (state - 1)
      else completer_loop rest text state
  end.

(** [Cli.completer]; [None] is the value a Python function returns when
    it falls off its end. *)
Definition completer (text : string) (state : Z) : option string :=
  completer_loop (keys COMMANDS) text state.

(** The keywords a text completes to, in the order of the registry. *)
Definition completions (cmds : list string) (text : string) : list string :=
  List.filter (fun cmd => PyStr.startswith cmd (PyStr.upper text)) cmds.

End Completer.

(** ** What the other commands are observed to do *)

Section MoreObservations.
Context `{Collaborators}.

(** The line DBINFO prints for one statistic. *)
Definition dbinfo_print (info : list (string * pyobj)) (key : string)
  : event :=
  Print [white (PStr key) +:+ ": " +:+ blue (default PNone (assoc key info))].

(** The completion AUTOCOMPLETE shows for a key: what stands after its
    first bar, up to the next one. *)
Definition completion_of (key : string) : option string :=
  PyStr.split "|" key !! 1.

(** The line REVERSE prints for a result. *)
Definition reverse_print (r : SearchResult) : event :=
  Print [show_reverse r].

(** The line SEARCH and EXPLAIN print for a result. *)
Definition result_print (r : SearchResult) : event :=
  Print [show_result r].

(** The last line of the shell. *)
Definition farewell_print : event :=
  Print [red (PStr (PyStr.nl +:+ "Exiting, bye!"))].

(** A word as [str.split()] yields them: not empty, no whitespace in
    it. *)
Fixpoint solid (s : string) : bool :=
  match s with
  | EmptyString => true
  | String c s' => negb (PyStr.is_space c) && solid s'
  end.

Definition is_word (s : string) : bool :=
  match s with
  | EmptyString => false
  | _ => solid s
  end.

End MoreObservations.

(** ** The test fixtures ([conftest.py]) *)

Module Conftest.
Section Fixtures.

(** The values of a document, with Python's truth test on them. *)
Variable value : Type.
Variable truthy : value -> bool.
(** [str] values, the float [0.0] and the mapping of the housenumber
    fixture. *)
Variable of_str : string -> value.
Variable zero : value.
Variable housenumbers_11 : value.

(** A [dict] with [str] keys, in insertion order. *)
Definition dict := list (string * value).

(** [d.update(kwargs)] *)
Definition update (d kwargs : dict) : dict :=
  foldl (fun d kv => dict_set kv.1 kv.2 d) d kwargs.

(** [kwargs.pop(key, default)]: the value, if any, and what is left. *)
Fixpoint pop (key : string) (d : dict) : option value * dict :=
  match d with
  | [] => (None, [])
  | (k, v) :: rest =>
      if String.eqb key k then (Some v, rest)
      else let '(found, rest') := pop key rest in (found, (k, v) :: rest')
  end.

(** [DummyDoc.__init__] with keyword arguments: the document, and the documents handed
    to [index_document], in order. *)
Definition DummyDoc (kwargs : dict) : dict * list dict :=
  let '(skip_index, kwargs) := pop "skip_index" kwargs in
  let self := kwargs in
  if match skip_index with Some v => truthy v | None => false end
  then (self, [])
  else (self, [self]).

(** [DummyDoc.update] with keyword arguments *)
Definition DummyDoc_update (self kwargs : dict) : dict * list dict :=
  let self := update self kwargs in
  (self, [self]).

(** The defaults of [factory]; [id] is the hexadecimal form of a fresh
    UUID. *)
Definition defaults (id : string) : dict :=
  [("id", of_str id); ("type", of_str "street");
   ("name", of_str "ellington"); ("importance", zero);
   ("lat", of_str "48.3254"); ("lon", of_str "2.256")].

(** The function the [factory] fixture returns. *)
Definition factory (id : string) (kwargs : dict) : dict * list dict :=
  let default := update (defaults id) kwargs in
  DummyDoc default.

Definition street (id : string) : dict * list dict := factory id [].

Definition city (id : string) : dict * list dict :=
  factory id [("type", of_str "city")].

Definition housenumber (id : string) : dict * list dict :=
  factory id [("housenumbers", housenumbers_11)].

End Fixtures.
End Conftest.

(** ** A second small index, with documents that lack fields *)

Module Shelf.

Definition statistics : list (string * @pyobj Demo.numbers) :=
  [("keyspace_misses", PInt 4); ("keyspace_hits", PInt 9);
   ("used_memory_human", PStr "1.02M");
   ("total_commands_processed", PInt 40);
   ("total_connections_received", PInt 2);
   ("connected_clients", PInt 1)].

(** A store with no key: INFO reports no database 0. *)
Definition empty_store : @Store Demo.numbers :=
  {| keyspace := ∅; server_info := statistics |}.

Definition store : @Store Demo.numbers :=
  {| keyspace :=
       list_to_map
         [("d|2", VHash [("postcode", "75001"); ("city", "Paris")]);
          ("d|3", VHash [("name", "rue des Lilas"); ("city", "Paris")])];
     server_info :=
       statistics ++ [("db0", PDict [(PStr "keys", PInt 2)])] |}.

Definition keys_of (token : string) : list string :=
  if String.eqb token "lilas" then ["a|lilas"; "a|lilac|x"] else ["lil"].

Definition on (s : @Store Demo.numbers) : @Collaborators Demo.numbers :=
  {| py_str := fun _ => "<object>";
     json_dumps := fun _ => "<json>";
     preprocess_query := Demo.tokenize;
     search := fun _ _ _ _ => [Demo.lilas];
     reverse := fun _ _ => [Demo.lilas];
     document_key := fun a => "d|" +:+ default "None" a;
     token_key := fun t => "w|" +:+ t;
     pair_key := fun t => "p|" +:+ t;
     token_frequency := fun _ => PInt 1;
     autocomplete_keys := keys_of;
     make_SearchResult := fun _ => Demo.lilas;
     compare_ngrams := fun _ _ => PInt 1;
     haversine_distance := fun _ _ => 0%Z;
     km_to_score := fun _ => 1%Z;
     geohash_bbox := fun _ => None;
     DB := s |}.

Definition collaborators : @Collaborators Demo.numbers := on store.

(** Values for the fixtures: strings, the empty one being false. *)
Definition truthy (v : string) : bool := negb (String.eqb v EmptyString).

End Shelf.

(** ** The monad: how traces compose *)

Section MonadFacts.
Context `{PyFloat}.

Lemma bind_ret {A B} (a : A) (k : A -> M B) : (ret a ≫= k) = k a.
Proof. unfold mbind, M_bind, bind; simpl. by destruct (k a). Qed.

Lemma bind_raise {A B} (e : exn) (k : A -> M B) : (raise e ≫= k) = raise e.
Proof. reflexivity. Qed.

Lemma bind_emit {B} (e : event) (k : unit -> M B) :
  (emit e ≫= k) = Run (e :: trace (k tt)) (outcome (k tt)).
Proof. reflexivity. Qed.

Lemma bind_returns {A B} (t : list event) (a : A) (k : A -> M B) :
  (Run t (Returns a) ≫= k) = Run (t ++ trace (k a)) (outcome (k a)).
Proof. reflexivity. Qed.

Lemma bind_raises {A B} (t : list event) (e : exn) (k : A -> M B) :
  (Run t (Raises e : result A) ≫= k) = Run t (Raises e).
Proof. reflexivity. Qed.

Lemma run_eta {A} (m : M A) : Run (trace m) (outcome m) = m.
Proof. by destruct m. Qed.

(** A loop whose body always returns: the traces of the iterations, one
    after the other. *)
Lemma for_each_returns {A} (l : list A) (body : A -> M unit) :
  (forall x, outcome (body x) = Returns tt) ->
  for_each l body = Run (l ≫= fun x => trace (body x)) (Returns tt).
Proof.
  intros Hbody. induction l as [|x l IH]; simpl; [done|].
  rewrite IH. unfold mbind at 1, M_bind, bind. by rewrite Hbody.
Qed.

End MonadFacts.

(** ** Properties of the commands *)

Section Commands.
Context `{Collaborators}.

(** *** DISTANCE *)

Lemma prefix_char (c x : ascii) (s : string) :
  PyStr.is_prefix (String c EmptyString) (String x s) = Ascii.eqb c x.
Proof. simpl. apply andb_true_r. Qed.

Lemma split_from_length_char (c : ascii) (cur s : string) :
  length (PyStr.split_from (String c EmptyString) 0 cur s)
  = S (PyStr.count_from (String c EmptyString) 0 s).
Proof.
  revert cur. induction s as [|x s IH]; intros cur; [done|].
  cbn [PyStr.split_from PyStr.count_from]. rewrite prefix_char.
  destruct (Ascii.eqb c x); cbn [length]; by rewrite IH.
Qed.

(** [split] on a one-character separator yields one piece more than the
    separator occurs. *)
Lemma split_length_count (c : ascii) (s : string) :
  length (PyStr.split (String c EmptyString) s)
  = S (PyStr.count (String c EmptyString) s).
Proof. apply split_from_length_char. Qed.

(** C4. DISTANCE on an argument whose split on the bar does not have
    exactly two parts prints the malformed-input message, returns, and
    calls no collaborator (so [a] and [a|b|c] both do); with exactly two
    parts it calls [compare_ngrams] on them and prints the score. *)
Theorem do_distance_two_parts (s : string) :
  (length (PyStr.split "|" s) ≠ 2 ->
     do_distance (Some s) = Run [Print [red (PStr malformed_string)]] (Returns tt)
     /\ forall one two, Call_compare_ngrams one two ∉ trace (do_distance (Some s)))
  /\ (forall one two, PyStr.split "|" s = [one; two] ->
        do_distance (Some s)
        = Run [Call_compare_ngrams one two;
               Print [white (compare_ngrams one two)]] (Returns tt))
  /\ (length (PyStr.split "|" s) = 2 <-> PyStr.count "|" s = 1)
  /\ do_distance (Some "a")
     = Run [Print [red (PStr malformed_string)]] (Returns tt)
  /\ do_distance (Some "a|b|c")
     = Run [Print [red (PStr malformed_string)]] (Returns tt).
Proof.
  split; [|split; [|split; [|split]]].
  - intros Hlen. unfold do_distance.
    assert (Hne : (length (PyStr.split "|" s) =? 2) = false)
      by (by apply Nat.eqb_neq).
    rewrite Hne; simpl. split; [done|].
    intros one two Hin. apply list_elem_of_singleton in Hin. discriminate.
  - intros one two Hsplit. unfold do_distance. by rewrite Hsplit.
  - rewrite (split_length_count "|" s). lia.
  - reflexivity.
  - reflexivity.
Qed.

(** *** GEOHASHTOGEOJSON *)

(** C8. On a geohash the decoder accepts, GEOHASHTOGEOJSON prints the
    GeoJSON Polygon of one ring of five points: the corners [w,n], [e,n],
    [e,s], [w,s] of the decoded box in that order, then the first corner
    again; the four corners are distinct when the box is not flat. *)
Theorem do_geohashtogeojson_closed_ring (geoh : pyarg) (b : bbox) :
  geohash_bbox geoh = Some b ->
  do_geohashtogeojson geoh
  = Run [Call_geohash_bbox geoh;
         Print [white (PStr (json_dumps (geojson b)))]] (Returns tt)
  /\ geojson b
     = JObj [("type", JStr "Polygon");
             ("coordinates",
               JArr [JArr ((fun p => JArr (JNum <$> p)) <$> ring b)])]
  /\ length (ring b) = 5
  /\ ring b !! 0 = Some [bb_w b; bb_n b]
  /\ ring b !! 4 = ring b !! 0
  /\ take 4 (ring b)
     = [[bb_w b; bb_n b]; [bb_e b; bb_n b]; [bb_e b; bb_s b]; [bb_w b; bb_s b]]
  /\ (bb_w b ≠ bb_e b -> bb_n b ≠ bb_s b -> NoDup (take 4 (ring b))).
Proof.
  intros Hbox. repeat split.
  - unfold do_geohashtogeojson. by rewrite Hbox.
  - intros Hwe Hns. simpl.
    repeat (apply NoDup_cons; split); try apply NoDup_nil_2;
      rewrite ?not_elem_of_cons; repeat split;
      try apply not_elem_of_nil; intros Heq; injection Heq; congruence.
Qed.

(** *** First token of the tokenizer *)

(** C10. FREQUENCY, AUTOCOMPLETE, BESTSCORE and PAIR index the list of
    tokens at 0 with no guard: when the argument tokenizes to nothing
    each one raises [IndexError] right after the tokenizer call, having
    printed nothing. *)
Theorem first_token_unguarded (s : pyarg) :
  preprocess_query s = [] ->
  do_frequency s = Run [Call_preprocess_query s] (Raises IndexError)
  /\ do_autocomplete s = Run [Call_preprocess_query s] (Raises IndexError)
  /\ do_bestscore s = Run [Call_preprocess_query s] (Raises IndexError)
  /\ do_pair s = Run [Call_preprocess_query s] (Raises IndexError).
Proof.
  intros Hempty.
  unfold do_frequency, word_frequency, do_autocomplete, do_bestscore,
    do_pair, indexed_string.
  rewrite Hempty. by repeat split.
Qed.

End Commands.

(** ** The dispatcher and the read loop *)

Section Dispatch.
Context `{Collaborators}.

Lemma COMMANDS_keys :
  keys COMMANDS
  = ["AUTOCOMPLETE"; "BESTSCORE"; "DBINFO"; "DBKEY"; "DISTANCE"; "EXPLAIN";
     "FREQUENCY"; "GEODISTANCE"; "GEOHASHTOGEOJSON"; "GET"; "HELP"; "INDEX";
     "PAIR"; "REVERSE"; "SEARCH"; "TOKENIZE"].
Proof. reflexivity. Qed.

(** [count] and [partition] agree on whether the separator occurs. *)
Lemma count_partition (c : ascii) (sep s : string) :
  (0 <? PyStr.count (String c sep) s)
  = bool_decide (is_Some (PyStr.partition (String c sep) s)).
Proof.
  unfold PyStr.count. induction s as [|x s IH]; [done|].
  cbn [PyStr.count_from PyStr.partition].
  destruct (PyStr.is_prefix (String c sep) (String x s)); [done|].
  rewrite IH. destruct (PyStr.partition (String c sep) s) as [[b a]|]; done.
Qed.

Lemma handle_command_default (line : string) :
  line ≠ EmptyString ->
  PyStr.startswith_any line (keys COMMANDS) = false ->
  handle_command line = do_search (Some line).
Proof.
  intros Hne Hkw. destruct line as [|c line]; [done|].
  unfold handle_command. rewrite Hkw. cbn [negb]. by rewrite bind_ret.
Qed.

Lemma handle_command_keyword (line : string) :
  line ≠ EmptyString ->
  PyStr.startswith_any line (keys COMMANDS) = true ->
  handle_command line
  = match PyStr.partition " " line with
    | Some (action, arg) => dispatch line action (Some arg)
    | None => dispatch line line None
    end.
Proof.
  intros Hne Hkw. destruct line as [|c line]; [done|].
  unfold handle_command. rewrite Hkw. cbn [negb].
  rewrite count_partition. unfold PyStr.split1.
  destruct (PyStr.partition " " (String c line)) as [[action arg]|].
  - rewrite bool_decide_true by eauto. by rewrite bind_ret.
  - rewrite bool_decide_false by (by intros [? ?]). by rewrite bind_ret.
Qed.

(** A line that begins with whitespace begins with no keyword. *)
Lemma space_not_keyword (c : ascii) (s : string) :
  PyStr.is_space c = true ->
  PyStr.startswith_any (String c s) (keys COMMANDS) = false.
Proof.
  intros Hc. destruct c as [[] [] [] [] [] [] [] []];
    vm_compute in Hc; try discriminate Hc; reflexivity.
Qed.

(** C1, as the code has it. A line that is not empty and that has no
    registered keyword as a prefix (the keyword compared as it is with the
    beginning of the raw line, not with its first token, and with no change
    of case) is dispatched as SEARCH with the whole line, verbatim, as its
    argument. *)
Theorem handle_command_falls_back_to_search (line : string) :
  line ≠ EmptyString ->
  (forall keyword, keyword ∈ keys COMMANDS ->
     PyStr.startswith line keyword = false) ->
  handle_command line = do_search (Some line).
Proof.
  intros Hne Hkw. apply handle_command_default; [done|].
  unfold PyStr.startswith_any.
  destruct (existsb (PyStr.startswith line) (keys COMMANDS)) eqn:Hex; [|done].
  apply existsb_exists in Hex as (keyword & Hin & Hstart).
  apply list_elem_of_In in Hin. by rewrite (Hkw keyword Hin) in Hstart.
Qed.

(** C3, as the code has it. The line is dispatched as typed, without
    trimming: the empty line returns at once, with no event and no error;
    a line of whitespace only is searched for, verbatim. *)
Theorem handle_command_empty_line :
  handle_command EmptyString = Run [] (Returns tt)
  /\ forall line : string,
       line ≠ EmptyString -> blank line = true ->
       handle_command line = do_search (Some line).
Proof.
  split; [done|]. intros line Hne Hblank.
  apply handle_command_default; [done|].
  destruct line as [|c line]; [done|].
  apply andb_prop in Hblank as [Hc _]. by apply space_not_keyword.
Qed.

Lemma handle_command_arg (line action arg : string) :
  PyStr.startswith_any line (keys COMMANDS) = true ->
  PyStr.partition " " line = Some (action, arg) ->
  handle_command line = dispatch line action (Some arg).
Proof.
  intros Hkw Hpart. rewrite handle_command_keyword, ?Hpart; [done| |done].
  intros ->. discriminate Hpart.
Qed.

Lemma loop_line_returns (line : string) (rest : list input) (t : list event) :
  handle_command line = Run t (Returns tt) ->
  loop (Line line :: rest)
  = (emit (Prompt "> ") ;; Run t (Returns tt) ;; separator ;; loop rest).
Proof. intros Hrun. cbn [loop]. by rewrite Hrun. Qed.

(** C2, as the code has it. An unrecognized command, a DISTANCE argument
    that does not split in two and a GEODISTANCE argument that does not
    split in three are reported by a printed line, after which the loop
    prints its separator and goes on with the next input, as it does after
    every command that returns. The loop itself catches the interrupt and the end of input only, which end it with the
    farewell; an exception of any other kind that a command raises leaves
    the loop and ends the shell, the remaining input unread. *)
Theorem loop_user_errors (line : string) (rest : list input) :
  (PyStr.startswith_any line (keys COMMANDS) = true ->
   getattr ("do_" +:+ PyStr.lower (action_of line)) = None ->
   loop (Line line :: rest)
   = (emit (Prompt "> ") ;;
      print [red (PStr ("No command for " +:+ line))] ;;
      separator ;; loop rest))
  /\ (forall s : string,
        line = "DISTANCE " +:+ s -> length (PyStr.split "|" s) ≠ 2 ->
        loop (Line line :: rest)
        = (emit (Prompt "> ") ;; print [red (PStr malformed_string)] ;;
           separator ;; loop rest))
  /\ (forall s : string,
        line = "GEODISTANCE " +:+ s -> length (PyStr.words s) ≠ 3 ->
        loop (Line line :: rest)
        = (emit (Prompt "> ") ;; print [malformed_query] ;;
           separator ;; loop rest))
  /\ (forall t : list event,
        handle_command line = Run t (Returns tt) ->
        loop (Line line :: rest)
        = (emit (Prompt "> ") ;; Run t (Returns tt) ;; separator ;; loop rest))
  /\ (forall e : exn,
        outcome (handle_command line) = Raises e ->
        e ≠ KeyboardInterrupt -> e ≠ EOFError ->
        loop (Line line :: rest)
        = Run (Prompt "> " :: trace (handle_command line)) (Raises e))
  /\ loop [] = (emit (Prompt "> ") ;; farewell)
  /\ loop (Interrupt :: rest) = (emit (Prompt "> ") ;; farewell).
Proof.
  split; [|split; [|split; [|split; [|split; [|split]]]]]; try reflexivity.
  - intros Hkw Hattr. apply loop_line_returns.
    assert (Hne : line ≠ EmptyString) by (by intros ->).
    rewrite handle_command_keyword by done.
    unfold action_of, PyStr.split1 in Hattr.
    destruct (PyStr.partition " " line) as [[action arg]|];
      unfold dispatch; cbn [hd] in Hattr; by rewrite Hattr.
  - intros s -> Hlen. apply loop_line_returns.
    rewrite (handle_command_arg _ "DISTANCE" s) by reflexivity.
    change (dispatch _ "DISTANCE" (Some s)) with (do_distance (Some s)).
    unfold do_distance.
    by rewrite (proj2 (Nat.eqb_neq _ _) Hlen).
  - intros s -> Hlen. apply loop_line_returns.
    rewrite (handle_command_arg _ "GEODISTANCE" s) by reflexivity.
    change (dispatch _ "GEODISTANCE" (Some s)) with (do_geodistance (Some s)).
    unfold do_geodistance. cbn [fmap option_fmap option_map].
    by destruct (PyStr.words s) as [|a [|b [|c [|d l]]]].
  - apply loop_line_returns.
  - intros e He Hki Heof. cbn [loop]. rewrite He.
    by destruct e.
Qed.

End Dispatch.

(** ** Reading the index *)

Section Index.
Context `{Collaborators}.

(** *** GET *)

Lemma get_fields_split (items h : list (string * string)) :
  get_fields items h
  = Run (field_print <$> plain_fields items)
        (Returns (foldl (fun h field => dict_set field.1 field.2 h) h
                    (List.filter is_housenumber items))).
Proof.
  revert h. induction items as [|[key value] items IH]; intros h; [done|].
  cbn [get_fields List.filter]. unfold plain_fields in *.
  cbn [List.filter].
  change (is_housenumber (key, value)) with (PyStr.startswith key "h|").
  destruct (PyStr.startswith key "h|"); cbn [negb]; by rewrite IH.
Qed.

Lemma doc_by_id_document (_id : pyarg) (doc : list (string * string)) :
  document _id = Some doc ->
  doc_by_id _id = Run [DB_hgetall (document_key _id)] (Returns doc).
Proof.
  unfold document, doc_by_id, hgetall. intros Hdoc.
  destruct (lookup_key (document_key _id)) as [[]|]; by simplify_eq.
Qed.

Lemma dict_set_fresh {A} (key : string) (v : A) (d : list (string * A)) :
  key ∉ d.*1 -> dict_set key v d = d ++ [(key, v)].
Proof.
  induction d as [|[k x] d IH]; [done|]. cbn [dict_set fmap list_fmap fst].
  intros [Hk Hd]%not_elem_of_cons.
  destruct (String.eqb_spec key k) as [->|_]; [done|]. by rewrite IH.
Qed.

Lemma filter_keys {A} (f : string * A -> bool) (d : list (string * A))
  (key : string) :
  key ∈ (List.filter f d).*1 -> key ∈ d.*1.
Proof.
  intros ([k v] & -> & Hin)%list_elem_of_fmap.
  apply list_elem_of_In, filter_In in Hin as [Hin _].
  apply list_elem_of_fmap. exists (k, v). by rewrite list_elem_of_In.
Qed.

Lemma filter_keys_NoDup {A} (f : string * A -> bool) (d : list (string * A)) :
  NoDup d.*1 -> NoDup (List.filter f d).*1.
Proof.
  induction d as [|x d IH]; [done|]. cbn [List.filter fmap list_fmap].
  intros [Hx Hd]%NoDup_cons. destruct (f x); [|by apply IH].
  cbn [fmap list_fmap]. apply NoDup_cons. split; [|by apply IH].
  intros Hin. by apply Hx, (filter_keys f).
Qed.

Lemma foldl_dict_set {A} (h l : list (string * A)) :
  NoDup (h.*1 ++ l.*1) ->
  foldl (fun h field => dict_set field.1 field.2 h) h l = h ++ l.
Proof.
  revert h. induction l as [|[k v] l IH]; intros h Hnodup.
  - by rewrite app_nil_r.
  - cbn [foldl fst snd]. cbn [fmap list_fmap fst] in Hnodup.
    rewrite dict_set_fresh.
    + rewrite IH; [by rewrite <- app_assoc|].
      rewrite fmap_app, <- app_assoc. done.
    + apply NoDup_app in Hnodup as (_ & Hdisjoint & _).
      intros Hin. apply (Hdisjoint k Hin). apply elem_of_cons. by left.
Qed.

(** C7, as the code has it. GET prints each field whose name does not
    start with [h|] directly, in the order of the mapping; the fields
    whose name does are gathered in one mapping (all of them, in their
    order, the names of a mapping being distinct), printed once, after
    the others, and only when there is at least one; no such field is
    printed directly. On a document that is not in the store GET prints nothing
    and raises nothing. *)
Theorem do_get_fields (_id : pyarg) :
  (forall doc, document _id = Some doc ->
     do_get _id
     = Run (DB_hgetall (document_key _id)
            :: (field_print <$> plain_fields doc)
            ++ housenumbers_print (housenumbers_of doc)) (Returns tt)
     /\ (NoDup doc.*1 -> housenumbers_of doc = List.filter is_housenumber doc)
     /\ (forall field, field ∈ plain_fields doc ->
           field ∈ doc /\ PyStr.startswith field.1 "h|" = false)
     /\ (forall field, field ∈ doc -> PyStr.startswith field.1 "h|" = false ->
           field_print field ∈ trace (do_get _id)))
  /\ (lookup_key (document_key _id) = None ->
      do_get _id = Run [DB_hgetall (document_key _id)] (Returns tt)).
Proof.
  assert (Hrun : forall doc, document _id = Some doc ->
     do_get _id
     = Run (DB_hgetall (document_key _id)
            :: (field_print <$> plain_fields doc)
            ++ housenumbers_print (housenumbers_of doc)) (Returns tt)).
  { intros doc Hdoc. unfold do_get.
    rewrite (doc_by_id_document _ _ Hdoc), bind_returns, get_fields_split.
    rewrite bind_returns. fold (housenumbers_of doc).
    by destruct (housenumbers_of doc). }
  split.
  - intros doc Hdoc. split; [by apply Hrun|]. split; [|split].
    + intros Hnodup. unfold housenumbers_of. rewrite foldl_dict_set; [done|].
      by apply filter_keys_NoDup.
    + intros field Hin. apply list_elem_of_In, filter_In in Hin.
      rewrite list_elem_of_In. split; [tauto|].
      destruct Hin as [_ Hin]. by apply negb_true_iff in Hin.
    + intros field Hin Hplain. rewrite (Hrun doc Hdoc). cbn [trace].
      apply elem_of_cons. right. apply elem_of_app. left.
      apply list_elem_of_fmap. exists field. split; [done|].
      apply list_elem_of_In, filter_In. split; [by apply list_elem_of_In|].
      by apply negb_true_iff.
  - intros Hnone. rewrite (Hrun []); [done|].
    unfold document. by rewrite Hnone.
Qed.

(** *** INDEX *)

Lemma zmembers_posting_list (key : string) (members : list (string * float)) :
  posting_list key = Some members -> zmembers key = Run [] (Returns members).
Proof.
  unfold posting_list, zmembers.
  destruct (lookup_key key) as [[]|]; intros; by simplify_eq.
Qed.

Lemma indexed_string_run (s : pyarg) :
  indexed_string s
  = Run [Call_preprocess_query s] (Returns (preprocess_query s)).
Proof. reflexivity. Qed.

Lemma print_field_index_details_events (field : string) (_id : pyarg) :
  token_keys_hold_sorted_sets ->
  _print_field_index_details field _id
  = Run (field_events _id field) (Returns tt).
Proof.
  intros Hkeys. unfold _print_field_index_details.
  rewrite indexed_string_run, bind_returns. unfold field_events.
  rewrite for_each_returns.
  - cbn [trace outcome]. do 2 f_equal.
    apply list_bind_ext; [|done]. intros token.
    destruct (Hkeys token) as [members Hmembers].
    unfold zscore, zrevrank, members_of.
    rewrite Hmembers, (zmembers_posting_list _ _ Hmembers). reflexivity.
  - intros token. destruct (Hkeys token) as [members Hmembers].
    unfold zscore, zrevrank.
    by rewrite (zmembers_posting_list _ _ Hmembers).
Qed.

(** C6. INDEX reads the document, then takes the fields [name],
    [postcode], [city] and [context], these four and in this order; it
    tokenizes the value of each and, for each token in turn, asks the
    store once for the score of the document in the posting list of the
    token and once for its descending rank, and prints them. When one of
    the four fields is missing the lookup raises [KeyError]. *)
Theorem do_index_four_fields (_id : pyarg) (doc : list (string * string)) :
  token_keys_hold_sorted_sets ->
  document _id = Some doc ->
  (forall name postcode city context : string,
     assoc "name" doc = Some name ->
     assoc "postcode" doc = Some postcode ->
     assoc "city" doc = Some city ->
     assoc "context" doc = Some context ->
     do_index _id
     = Run (DB_hgetall (document_key _id)
            :: field_events _id name ++ field_events _id postcode
            ++ field_events _id city ++ field_events _id context)
           (Returns tt))
  /\ (assoc "name" doc = None \/ assoc "postcode" doc = None
      \/ assoc "city" doc = None \/ assoc "context" doc = None ->
      outcome (do_index _id) = Raises KeyError).
Proof.
  intros Hkeys Hdoc. unfold do_index, getitem.
  rewrite (doc_by_id_document _ _ Hdoc), bind_returns.
  split.
  - intros name postcode city context -> -> -> ->.
    rewrite !bind_ret, !print_field_index_details_events by done.
    rewrite !bind_returns. reflexivity.
  - intros Hmissing. cbn [outcome].
    destruct (assoc "name" doc) as [name|]; [|done].
    rewrite bind_ret, print_field_index_details_events, bind_returns by done.
    destruct (assoc "postcode" doc) as [postcode|]; [|done].
    rewrite bind_ret, print_field_index_details_events, bind_returns by done.
    destruct (assoc "city" doc) as [city|]; [|done].
    rewrite bind_ret, print_field_index_details_events, bind_returns by done.
    destruct (assoc "context" doc) as [context|]; [|done].
    destruct Hmissing as [?|[?|[?|?]]]; discriminate.
Qed.

(** *** BESTSCORE *)

Lemma zbefore_true (x y : string * float) :
  zbefore x y = true -> score_ge x y.
Proof.
  unfold zbefore, score_ge. by destruct (float_leb y.2 x.2).
Qed.

Lemma zbefore_false (x y : string * float) :
  float_leb_total -> zbefore x y = false -> score_ge y x.
Proof.
  unfold zbefore, score_ge. intros Htotal.
  destruct (float_leb y.2 x.2) eqn:Hyx; [|intros _; by apply Htotal].
  by destruct (float_leb x.2 y.2).
Qed.

Lemma zinsert_hd (x a : string * float) (l : list (string * float)) :
  score_ge a x -> HdRel score_ge a l -> HdRel score_ge a (zinsert x l).
Proof.
  intros Hax Hal. destruct l as [|y l]; cbn [zinsert].
  - by constructor.
  - destruct (zbefore x y); constructor; [done|]. by inversion Hal.
Qed.

Lemma zinsert_sorted (x : string * float) (l : list (string * float)) :
  float_leb_total -> Sorted score_ge l -> Sorted score_ge (zinsert x l).
Proof.
  intros Htotal Hl. induction Hl as [|y l Hl IH Hy]; cbn [zinsert].
  - by repeat constructor.
  - destruct (zbefore x y) eqn:Hxy.
    + constructor; [by constructor|]. constructor. by apply zbefore_true.
    + constructor; [done|]. apply zinsert_hd; [|done].
      by apply zbefore_false.
Qed.

Lemma zdesc_sorted (l : list (string * float)) :
  float_leb_total -> Sorted score_ge (zdesc l).
Proof.
  intros Htotal. induction l as [|x l IH]; cbn [zdesc foldr].
  - constructor.
  - by apply zinsert_sorted.
Qed.

Lemma Sorted_take {A} (R : A -> A -> Prop) (n : nat) (l : list A) :
  Sorted R l -> Sorted R (take n l).
Proof.
  intros Hl. revert n. induction Hl as [|x l Hl IH Hx]; intros [|n];
    cbn [take]; try constructor.
  - apply IH.
  - destruct Hx; destruct n; cbn [take]; by constructor.
Qed.

(** The ranks 0 to 20 of a sorted set are its first 21 entries. *)
Lemma zslice_top21 {A} (l : list A) : zslice 0 20 l = take 21 l.
Proof.
  unfold zslice. cbn [Z.ltb Z.compare].
  destruct (Z.ltb_spec (Z.min 20 (Z.of_nat (length l) - 1)) 0) as [Hlt|Hge].
  - destruct l; [done|]. exfalso. cbn [length] in Hlt.
    destruct (Z.min_spec 20 (Z.of_nat (S (length l)) - 1)) as [[_ Hm]|[_ Hm]];
      rewrite Hm in Hlt; lia.
  - change (Z.to_nat 0) with 0%nat. rewrite drop_0.
    destruct (Z.le_gt_cases 20 (Z.of_nat (length l) - 1)) as [Hbig|Hsmall].
    + rewrite Z.min_l by done. reflexivity.
    + rewrite Z.min_r in * by lia.
      replace (Z.to_nat (Z.of_nat (length l) - 1 - 0 + 1)) with (length l)
        by lia.
      rewrite firstn_all. symmetry. apply take_ge. lia.
Qed.

Lemma zrevrange_posting_list (key : string) (start stop : Z)
  (members : list (string * float)) :
  posting_list key = Some members ->
  zrevrange key start stop
  = Run [DB_zrevrange key start stop]
        (Returns (zslice start stop (zdesc members))).
Proof.
  intros Hposting. unfold zrevrange.
  by rewrite (zmembers_posting_list _ _ Hposting).
Qed.

Lemma zrevrange_wrong_type (key : string) (start stop : Z) :
  posting_list key = None ->
  zrevrange key start stop
  = Run [DB_zrevrange key start stop] (Raises ResponseError).
Proof.
  unfold posting_list, zrevrange, zmembers.
  by destruct (lookup_key key) as [[]|].
Qed.

(** C5. BESTSCORE asks the store for the descending ranks 0 to 20 of the
    posting list of the first token: the entries it goes through, printing
    each one with its score, are the first 21 of the list from the highest
    to the lowest score, so they are 21 at most and each has a score that
    is not above the score of the one before. *)
Theorem do_bestscore_top21 (word : pyarg) (token : string)
  (rest : list string) :
  float_leb_total ->
  preprocess_query word = token :: rest ->
  exists entries : list (string * float),
    trace (do_bestscore word)
    = Call_preprocess_query word
      :: DB_zrevrange (token_key token) 0 20
      :: (entries ≫= best_events)
    /\ length entries <= 21
    /\ Sorted score_ge entries
    /\ (forall members,
          posting_list (token_key token) = Some members ->
          entries = take 21 (zdesc members)
          /\ outcome (do_bestscore word) = Returns tt).
Proof.
  intros Htotal Htokens. unfold do_bestscore.
  rewrite indexed_string_run, bind_returns, Htokens.
  change (index (token :: rest) 0) with (ret token).
  rewrite bind_ret.
  destruct (posting_list (token_key token)) as [members|] eqn:Hposting.
  - exists (take 21 (zdesc members)).
    rewrite (zrevrange_posting_list _ _ _ _ Hposting), bind_returns.
    rewrite zslice_top21, for_each_returns by done.
    cbn [trace outcome]. split; [done|]. split; [|split].
    + rewrite length_take. lia.
    + by apply Sorted_take, zdesc_sorted.
    + by intros ? [= <-].
  - exists []. rewrite (zrevrange_wrong_type _ _ _ Hposting), bind_raises.
    cbn [trace outcome]. split; [done|]. split; [cbn; lia|].
    split; [constructor|done].
Qed.

End Index.

(** ** SEARCH and EXPLAIN: the center clause *)

Section Search.
Context `{Collaborators}.

Lemma append_cons (c : ascii) (s t : string) :
  String c s +:+ t = String c (s +:+ t).
Proof. reflexivity. Qed.

Lemma append_nil_r (s : string) : s +:+ EmptyString = s.
Proof. induction s as [|c s IH]; [done|]. by rewrite append_cons, IH. Qed.

Lemma append_assoc (s t u : string) : (s +:+ t) +:+ u = s +:+ t +:+ u.
Proof. induction s as [|c s IH]; [done|]. by rewrite !append_cons, IH. Qed.

Lemma is_prefix_append (p s t : string) :
  PyStr.is_prefix p s = true -> PyStr.is_prefix p (s +:+ t) = true.
Proof.
  revert s. induction p as [|a p IH]; intros [|b s]; try done.
  rewrite append_cons. cbn [PyStr.is_prefix].
  intros [-> Hp]%andb_prop. by rewrite IH.
Qed.

Lemma is_prefix_drop (p s : string) :
  PyStr.is_prefix p s = true -> s = p +:+ PyStr.drop (PyStr.len p) s.
Proof.
  revert s. induction p as [|a p IH]; intros [|b s]; try done.
  cbn [PyStr.is_prefix]. intros [->%Ascii.eqb_eq Hp]%andb_prop.
  rewrite append_cons. f_equal. by apply IH.
Qed.

(** [partition] cuts at the first occurrence of the separator. *)
Lemma partition_first (c : ascii) (sep s before after : string) :
  PyStr.partition (String c sep) s = Some (before, after) ->
  s = before +:+ String c sep +:+ after
  /\ PyStr.contains (String c sep) before = false.
Proof.
  revert before after. induction s as [|x s IH]; intros before after; [done|].
  cbn [PyStr.partition].
  destruct (PyStr.is_prefix (String c sep) (String x s)) eqn:Hpre.
  - intros [= <- <-]. split; [|done]. exact (is_prefix_drop _ _ Hpre).
  - destruct (PyStr.partition (String c sep) s) as [[b a]|]; [|done].
    intros [= <- <-]. destruct (IH b a eq_refl) as [-> Hb].
    split; [done|]. unfold PyStr.contains in *. cbn [PyStr.partition].
    destruct (PyStr.is_prefix (String c sep) (String x b)) eqn:Hpre'.
    + change (String x (b +:+ String c sep +:+ a))
        with (String x b +:+ String c sep +:+ a) in Hpre.
      by rewrite (is_prefix_append _ _ _ Hpre') in Hpre.
    + by destruct (PyStr.partition (String c sep) b) as [[]|].
Qed.

Lemma split_from_skip (sep cur s : string) (k : nat) :
  PyStr.split_from sep k cur s = PyStr.split_from sep 0 cur (PyStr.drop k s).
Proof.
  revert k. induction s as [|x s IH]; intros [|k]; try done.
  cbn [PyStr.split_from PyStr.drop]. apply IH.
Qed.

(** [split] cuts at the first occurrence and goes on with the text after
    it. *)
Lemma split_from_partition (c : ascii) (sep cur s : string) :
  PyStr.split_from (String c sep) 0 cur s
  = match PyStr.partition (String c sep) s with
    | None => [cur +:+ s]
    | Some (b, a) => (cur +:+ b) :: PyStr.split (String c sep) a
    end.
Proof.
  revert cur. induction s as [|x s IH]; intros cur.
  - cbn. by rewrite append_nil_r.
  - cbn [PyStr.split_from PyStr.partition].
    destruct (PyStr.is_prefix (String c sep) (String x s)).
    + rewrite append_nil_r, split_from_skip. f_equal.
      cbn [PyStr.len String.length PyStr.drop Nat.sub].
      by rewrite Nat.sub_0_r.
    + rewrite IH.
      destruct (PyStr.partition (String c sep) s) as [[b a]|];
        by rewrite append_assoc.
Qed.

Lemma split_partition (c : ascii) (sep s : string) :
  PyStr.split (String c sep) s
  = match PyStr.partition (String c sep) s with
    | None => [s]
    | Some (b, a) => b :: PyStr.split (String c sep) a
    end.
Proof. unfold PyStr.split at 1. by rewrite split_from_partition. Qed.

Lemma _search_parse (query : string) (verbose : bool) :
  _search (Some query) verbose
  = ('(query, lat, lon) ← parse_center query; forwarded query verbose lat lon).
Proof. reflexivity. Qed.

(** C9. The center clause is found by substring: a query without
    [CENTER] is forwarded whole, with no center. A query with [CENTER]
    anywhere in it is cut at the first occurrence; when the text after it
    is two whitespace-separated numbers, and holds no further [CENTER],
    the text before it is forwarded with them as the center; when the text
    after it is anything else the command raises [ValueError] and the
    search engine is not called. *)
Theorem search_center_clause (query : string) (verbose : bool) :
  (PyStr.contains "CENTER" query = false ->
   _search (Some query) verbose = forwarded query verbose None None)
  /\ (PyStr.contains "CENTER" query = true ->
      exists before after : string,
        PyStr.partition "CENTER" query = Some (before, after))
  /\ (forall before after : string,
        PyStr.partition "CENTER" query = Some (before, after) ->
        query = before +:+ "CENTER" +:+ after
        /\ PyStr.contains "CENTER" before = false
        /\ (forall (lat lon : string) (x y : float),
              PyStr.contains "CENTER" after = false ->
              PyStr.words after = [lat; lon] ->
              float_of_str lat = Some x -> float_of_str lon = Some y ->
              _search (Some query) verbose
              = forwarded before verbose (Some x) (Some y))
        /\ (not_two_floats after ->
            _search (Some query) verbose = Run [] (Raises ValueError))
        /\ (PyStr.contains "CENTER" after = true ->
            _search (Some query) verbose = Run [] (Raises ValueError))).
Proof.
  rewrite _search_parse. unfold parse_center. split; [|split].
  - intros ->. by rewrite bind_ret.
  - unfold PyStr.contains.
    destruct (PyStr.partition "CENTER" query) as [[before after]|]; [|done].
    intros _. by exists before, after.
  - intros before after Hpart.
    destruct (partition_first _ _ _ _ _ Hpart) as [Hquery Hbefore].
    split; [done|]. split; [done|].
    assert (Hin : PyStr.contains "CENTER" query = true)
      by (unfold PyStr.contains; by rewrite Hpart).
    rewrite Hin, (split_partition "C" "ENTER" query), Hpart.
    rewrite (split_partition "C" "ENTER" after).
    unfold PyStr.contains.
    destruct (PyStr.partition "CENTER" after) as [[b a]|] eqn:Hafter.
    + split; [done|].
      rewrite (split_partition "C" "ENTER" a).
      split; intros _; by destruct (PyStr.partition "CENTER" a) as [[]|].
    + split; [|split; [|done]].
      * intros lat lon x y _ -> Hlat Hlon. unfold pyfloat.
        by rewrite Hlat, Hlon, !bind_ret.
      * unfold not_two_floats, pyfloat.
        destruct (PyStr.words after) as [|lat [|lon [|z l]]]; try done.
        intros [Hlat|Hlon].
        -- by rewrite Hlat.
        -- rewrite Hlon. by destruct (float_of_str lat).
Qed.

End Search.

(** ** The string operations on the inputs of the console *)

Example split_pipe_two :
  PyStr.split "|" "rue des lilas|porte des lilas"
  = ["rue des lilas"; "porte des lilas"].
Proof. reflexivity. Qed.

Example split_pipe_none : PyStr.split "|" "a" = ["a"].
Proof. reflexivity. Qed.

Example split_pipe_three : PyStr.split "|" "a|b|c" = ["a"; "b"; "c"].
Proof. reflexivity. Qed.

Example split_center_tail :
  PyStr.split "CENTER" "rue CENTER 48.1 2.2" = ["rue "; " 48.1 2.2"].
Proof. reflexivity. Qed.

Example split_center_end : PyStr.split "CENTER" "aCENTER" = ["a"; EmptyString].
Proof. reflexivity. Qed.

Example words_reverse : PyStr.words " 48.1234   2.9876 " = ["48.1234"; "2.9876"].
Proof. reflexivity. Qed.

Example split1_command :
  PyStr.split1 " " "GET 77 22" = ["GET"; "77 22"].
Proof. reflexivity. Qed.

Example lower_action : PyStr.lower "GEOHASHTOGEOJSON" = "geohashtogeojson".
Proof. reflexivity. Qed.

(** ** The console run on the small index *)

Section Runs.
Local Existing Instance Demo.numbers.
Local Existing Instance Demo.collaborators.

Example run_unknown_command :
  handle_command "SEARCHING foo"
  = Run [Print [red (PStr "No command for SEARCHING foo")]] (Returns tt).
Proof. reflexivity. Qed.

Example run_search_verbatim :
  handle_command "rue des Lilas"
  = Run [Call_search "rue des Lilas" false None None;
         Print [show_result Demo.lilas]; Print_elapsed] (Returns tt).
Proof. reflexivity. Qed.

Example run_lower_case_keyword :
  handle_command "get 1" = do_search (Some "get 1").
Proof. reflexivity. Qed.

Example run_blank_line :
  handle_command "  "
  = Run [Call_search "  " false None None;
         Print [show_result Demo.lilas]; Print_elapsed] (Returns tt).
Proof. reflexivity. Qed.

Example run_center :
  handle_command "rue CENTER 48 2"
  = Run [Call_search "rue " false (Some 48%Z) (Some 2%Z);
         Print [show_result Demo.lilas]; Print_elapsed] (Returns tt).
Proof. reflexivity. Qed.

Example run_center_inside_a_word :
  handle_command "CENTERVILLE road" = Run [] (Raises ValueError).
Proof. reflexivity. Qed.

Example run_reverse_not_numbers :
  loop [Line "REVERSE a b"; Line "HELP"]
  = Run [Prompt "> "] (Raises ValueError).
Proof. reflexivity. Qed.

Example run_reverse_one_number :
  loop [Line "REVERSE 48"; Line "HELP"]
  = Run [Prompt "> "] (Raises ValueError).
Proof. reflexivity. Qed.

Example run_get_missing :
  handle_command "GET 9" = Run [DB_hgetall "d|9"] (Returns tt).
Proof. reflexivity. Qed.

Example run_bestscore :
  trace (handle_command "BESTSCORE Lilas")
  = Call_preprocess_query (Some "Lilas") :: DB_zrevrange "w|lilas" 0 20
    :: ([("d|1", 7%Z); ("d|2", 5%Z); ("d|3", 2%Z)] ≫= best_events).
Proof. reflexivity. Qed.


(** *** C1 *)

(** C1, as the specification words it, fails: the first token of
    [SEARCHING foo] is no keyword, yet the line begins with [SEARCH] and is
    refused as an unknown command instead of being searched for. *)
Lemma default_search_by_first_token_fails : ¬ default_search_by_first_token.
Proof.
  intros Hclaim. specialize (Hclaim "SEARCHING foo").
  assert (Hnot : first_token_upper "SEARCHING foo" ∉ keys COMMANDS).
  { rewrite list_elem_of_In. vm_compute. intuition discriminate. }
  specialize (Hclaim Hnot). discriminate Hclaim.
Qed.

Lemma handle_command_falls_back_to_search_witness :
  "rue des Lilas" ≠ EmptyString
  /\ (forall keyword, keyword ∈ keys COMMANDS ->
        PyStr.startswith "rue des Lilas" keyword = false)
  /\ handle_command "rue des Lilas" = do_search (Some "rue des Lilas").
Proof.
  assert (Hkw : forall keyword, keyword ∈ keys COMMANDS ->
            PyStr.startswith "rue des Lilas" keyword = false).
  { intros keyword Hin. rewrite COMMANDS_keys in Hin.
    repeat (apply elem_of_cons in Hin as [->|Hin]; [reflexivity|]).
    by apply elem_of_nil in Hin. }
  split; [discriminate|]. split; [exact Hkw|].
  apply handle_command_falls_back_to_search; [discriminate|exact Hkw].
Defined.

(** *** C2 *)

(** C2, as the specification words it, fails: REVERSE on two words that
    are not numbers raises [ValueError]; nothing is printed, the loop does
    not catch it, and the next line is never read. *)
Lemma reverse_errors_are_survived_fails : ¬ reverse_errors_are_survived.
Proof.
  intros Hclaim.
  destruct (Hclaim "a b" [Line "HELP"]) as (t & _ & Hloop).
  - left. reflexivity.
  - apply (f_equal outcome) in Hloop. discriminate Hloop.
Qed.

Lemma loop_user_errors_witness :
  loop [Line "SEARCHING foo"]
  = (emit (Prompt "> ") ;;
     print [red (PStr "No command for SEARCHING foo")] ;;
     separator ;; loop [])
  /\ loop [Line "DISTANCE a|b|c"]
     = (emit (Prompt "> ") ;; print [red (PStr malformed_string)] ;;
        separator ;; loop [])
  /\ loop [Line "GEODISTANCE 1 48"]
     = (emit (Prompt "> ") ;; print [malformed_query] ;;
        separator ;; loop [])
  /\ loop [Line "TOKENIZE Rue des Lilas"]
     = (emit (Prompt "> ") ;;
        Run [Call_preprocess_query (Some "Rue des Lilas");
             Print [white (PStr "rue des lilas")]] (Returns tt) ;;
        separator ;; loop [])
  /\ loop [Line "INDEX 9"; Line "HELP"]
     = Run (Prompt "> " :: trace (handle_command "INDEX 9")) (Raises KeyError).
Proof.
  split; [|split; [|split; [|split]]].
  - apply (proj1 (loop_user_errors "SEARCHING foo" [])); reflexivity.
  - apply (proj1 (proj2 (loop_user_errors "DISTANCE a|b|c" []))
             "a|b|c"); [reflexivity|vm_compute; lia].
  - apply (proj1 (proj2 (proj2 (loop_user_errors "GEODISTANCE 1 48" [])))
             "1 48"); [reflexivity|vm_compute; lia].
  - apply (proj1 (proj2 (proj2 (proj2
             (loop_user_errors "TOKENIZE Rue des Lilas" []))))).
    reflexivity.
  - apply (proj1 (proj2 (proj2 (proj2 (proj2
             (loop_user_errors "INDEX 9" [Line "HELP"]))))));
      [reflexivity|discriminate|discriminate].
Defined.

(** *** C3 *)

(** C3, as the specification words it, fails: a line of one space is not
    trimmed to nothing, it is searched for. *)
Lemma trimmed_empty_is_noop_fails : ¬ trimmed_empty_is_noop.
Proof.
  intros Hclaim. specialize (Hclaim " " eq_refl). discriminate Hclaim.
Qed.

Lemma handle_command_empty_line_witness :
  " " ≠ EmptyString /\ blank " " = true
  /\ handle_command " " = do_search (Some " ").
Proof.
  split; [discriminate|]. split; [reflexivity|].
  apply (proj2 handle_command_empty_line); [discriminate|reflexivity].
Defined.

(** *** C4 *)

Lemma do_distance_two_parts_witness :
  (length (PyStr.split "|" "a|b|c") ≠ 2
   /\ do_distance (Some "a|b|c")
      = Run [Print [red (PStr malformed_string)]] (Returns tt))
  /\ (PyStr.split "|" "rue des lilas|porte des lilas"
      = ["rue des lilas"; "porte des lilas"]
      /\ do_distance (Some "rue des lilas|porte des lilas")
         = Run [Call_compare_ngrams "rue des lilas" "porte des lilas";
                Print [white (compare_ngrams "rue des lilas" "porte des lilas")]]
               (Returns tt)).
Proof.
  split.
  - assert (Hlen : length (PyStr.split "|" "a|b|c") ≠ 2)
      by (vm_compute; lia).
    split; [exact Hlen|].
    exact (proj1 (proj1 (do_distance_two_parts "a|b|c") Hlen)).
  - split; [reflexivity|].
    exact (proj1 (proj2 (do_distance_two_parts "rue des lilas|porte des lilas"))
             _ _ eq_refl).
Defined.

(** *** C5 *)

Lemma demo_leb_total : float_leb_total.
Proof.
  intros x y Hxy. apply Z.leb_gt in Hxy. apply Z.leb_le. lia.
Defined.

Lemma do_bestscore_top21_witness :
  float_leb_total
  /\ preprocess_query (Some "Lilas") = ["lilas"]
  /\ exists entries : list (string * float),
       trace (do_bestscore (Some "Lilas"))
       = Call_preprocess_query (Some "Lilas")
         :: DB_zrevrange (token_key "lilas") 0 20
         :: (entries ≫= best_events)
       /\ length entries <= 21
       /\ Sorted score_ge entries
       /\ (forall members,
             posting_list (token_key "lilas") = Some members ->
             entries = take 21 (zdesc members)
             /\ outcome (do_bestscore (Some "Lilas")) = Returns tt).
Proof.
  split; [exact demo_leb_total|]. split; [reflexivity|].
  exact (do_bestscore_top21 (Some "Lilas") "lilas" [] demo_leb_total eq_refl).
Defined.

(** *** C6 *)

Lemma demo_token_keys : token_keys_hold_sorted_sets.
Proof.
  intros token. unfold posting_list, lookup_key, token_key; cbn.
  change ("w|" +:+ token) with (String "w" (String "|" token)).
  unfold Demo.store; cbn [keyspace list_to_map foldr uncurry].
  rewrite lookup_insert_ne by discriminate.
  rewrite lookup_insert. case_decide; [by eexists|].
  rewrite lookup_insert. case_decide; [by eexists|].
  rewrite lookup_insert_ne by discriminate.
  rewrite lookup_empty. by eexists.
Defined.

Lemma do_index_four_fields_witness :
  token_keys_hold_sorted_sets
  /\ (exists doc, document (Some "1") = Some doc
        /\ assoc "name" doc = Some "rue des Lilas"
        /\ assoc "postcode" doc = Some "93260"
        /\ assoc "city" doc = Some "Les Lilas"
        /\ assoc "context" doc = Some "Seine")
  /\ do_index (Some "1")
     = Run (DB_hgetall (document_key (Some "1"))
            :: field_events (Some "1") "rue des Lilas"
            ++ field_events (Some "1") "93260"
            ++ field_events (Some "1") "Les Lilas"
            ++ field_events (Some "1") "Seine") (Returns tt)
  /\ (document (Some "9") = Some []
      /\ outcome (do_index (Some "9")) = Raises KeyError).
Proof.
  split; [exact demo_token_keys|]. split; [|split].
  - eexists. split; [reflexivity|]. by repeat split.
  - refine (proj1 (do_index_four_fields (Some "1") _ demo_token_keys _)
              _ _ _ _ _ _ _ _); reflexivity.
  - split; [reflexivity|].
    apply (proj2 (do_index_four_fields (Some "9") [] demo_token_keys eq_refl)).
    by left.
Defined.

(** *** C7 *)

(** C7, as the specification words it, fails on a missing document: GET
    reads the empty mapping and prints nothing at all. *)
Lemma get_missing_prints_a_mapping_fails : ¬ get_missing_prints_a_mapping.
Proof.
  intros Hclaim. destruct (Hclaim (Some "9") eq_refl) as [args Hin].
  change (trace (do_get (Some "9"))) with [DB_hgetall "d|9"] in Hin.
  apply list_elem_of_singleton in Hin. discriminate Hin.
Qed.

Lemma do_get_fields_witness :
  (exists doc, document (Some "1") = Some doc
     /\ plain_fields doc
        = [("name", "rue des Lilas"); ("postcode", "93260");
           ("city", "Les Lilas"); ("context", "Seine")]
     /\ housenumbers_of doc = [("h|11", "48|2"); ("h|12", "48|3")])
  /\ do_get (Some "1")
     = Run [DB_hgetall "d|1";
            field_print ("name", "rue des Lilas");
            field_print ("postcode", "93260");
            field_print ("city", "Les Lilas");
            field_print ("context", "Seine");
            Print [white (PStr "housenumbers");
                   magenta (str_dict [("h|11", "48|2"); ("h|12", "48|3")])]]
           (Returns tt)
  /\ lookup_key (document_key (Some "9")) = None
  /\ do_get (Some "9") = Run [DB_hgetall "d|9"] (Returns tt).
Proof.
  split; [|split; [|split]].
  - eexists. split; [reflexivity|]. by split.
  - exact (proj1 (proj1 (do_get_fields (Some "1")) _ eq_refl)).
  - reflexivity.
  - exact (proj2 (do_get_fields (Some "9")) eq_refl).
Defined.

(** *** C8 *)

Lemma do_geohashtogeojson_closed_ring_witness :
  geohash_bbox (Some "u09")
  = Some {| bb_n := 49%Z; bb_s := 48%Z; bb_e := 3%Z; bb_w := 2%Z |}
  /\ ring {| bb_n := 49%Z; bb_s := 48%Z; bb_e := 3%Z; bb_w := 2%Z |}
     = [[2%Z; 49%Z]; [3%Z; 49%Z]; [3%Z; 48%Z]; [2%Z; 48%Z]; [2%Z; 49%Z]]
  /\ do_geohashtogeojson (Some "u09")
     = Run [Call_geohash_bbox (Some "u09");
            Print [white (PStr (json_dumps (geojson
              {| bb_n := 49%Z; bb_s := 48%Z; bb_e := 3%Z; bb_w := 2%Z |})))]]
           (Returns tt).
Proof.
  split; [reflexivity|]. split; [reflexivity|].
  exact (proj1 (do_geohashtogeojson_closed_ring (Some "u09") _ eq_refl)).
Defined.

(** *** C9 *)

Lemma search_center_clause_witness :
  (PyStr.contains "CENTER" "rue des Lilas" = false
   /\ _search (Some "rue des Lilas") false
      = forwarded "rue des Lilas" false None None)
  /\ (PyStr.partition "CENTER" "rue CENTER 48 2" = Some ("rue ", " 48 2")
      /\ PyStr.words " 48 2" = ["48"; "2"]
      /\ _search (Some "rue CENTER 48 2") true
         = forwarded "rue " true (Some 48%Z) (Some 2%Z))
  /\ (PyStr.partition "CENTER" "CENTERVILLE road"
      = Some (EmptyString, "VILLE road")
      /\ not_two_floats "VILLE road"
      /\ _search (Some "CENTERVILLE road") false = Run [] (Raises ValueError)).
Proof.
  split; [|split].
  - split; [reflexivity|].
    exact (proj1 (search_center_clause "rue des Lilas" false) eq_refl).
  - split; [reflexivity|]. split; [reflexivity|].
    destruct (proj2 (proj2 (search_center_clause "rue CENTER 48 2" true))
                "rue " " 48 2" eq_refl) as (_ & _ & Hforward & _).
    exact (Hforward "48" "2" 48%Z 2%Z eq_refl eq_refl eq_refl eq_refl).
  - split; [reflexivity|].
    assert (Hbad : not_two_floats "VILLE road") by (by left).
    split; [exact Hbad|].
    destruct (proj2 (proj2 (search_center_clause "CENTERVILLE road" false))
                EmptyString "VILLE road" eq_refl) as (_ & _ & _ & Hraise & _).
    exact (Hraise Hbad).
Defined.

(** *** C10 *)

Lemma first_token_unguarded_witness :
  preprocess_query (Some "  ") = []
  /\ do_frequency (Some "  ")
     = Run [Call_preprocess_query (Some "  ")] (Raises IndexError)
  /\ do_autocomplete (Some "  ")
     = Run [Call_preprocess_query (Some "  ")] (Raises IndexError)
  /\ do_bestscore (Some "  ")
     = Run [Call_preprocess_query (Some "  ")] (Raises IndexError)
  /\ do_pair (Some "  ")
     = Run [Call_preprocess_query (Some "  ")] (Raises IndexError).
Proof.
  split; [reflexivity|].
  exact (first_token_unguarded (Some "  ") eq_refl).
Defined.

End Runs.

(** ** Tab completion and the registry *)

Section Registry.
Context `{Collaborators}.

Lemma completer_loop_nth (cmds : list string) (text : string) (state : Z) :
  completer_loop cmds text state
  = if (0 <=? state)%Z
    then (fun cmd => cmd +:+ " ") <$> completions cmds text !! Z.to_nat state
    else None.
Proof.
  revert state. induction cmds as [|cmd cmds IH]; intros state.
  - cbn. by destruct (0 <=? state)%Z.
  - cbn [completer_loop completions List.filter].
    destruct (PyStr.startswith cmd (PyStr.upper text)); [|apply IH].
    destruct (Z.eqb_spec state 0) as [->|Hne]; [done|].
    rewrite IH. fold (completions cmds text).
    destruct (Z.leb_spec 0 state) as [Hpos|Hneg].
    + rewrite (proj2 (Z.leb_le 0 (state - 1))) by lia.
      replace (Z.to_nat state) with (S (Z.to_nat (state - 1))) by lia. done.
    + by rewrite (proj2 (Z.leb_gt 0 (state - 1))) by lia.
Qed.

(** X1. Tab completion: for a state that is not negative [completer]
    returns the keyword of that rank among the registered keywords that
    start with the upper-cased text, in the order of the registry, followed
    by one space; past the last match, and for a negative state, it returns
    nothing. What it returns is always a registered keyword that starts
    with the upper-cased text, with the space. *)
Theorem completer_nth_match (text : string) (state : Z) :
  completer text state
  = (if (0 <=? state)%Z
     then (fun cmd => cmd +:+ " ")
            <$> completions (keys COMMANDS) text !! Z.to_nat state
     else None)
  /\ (forall line, completer text state = Some line ->
        exists keyword, line = keyword +:+ " "
          /\ keyword ∈ keys COMMANDS
          /\ PyStr.startswith keyword (PyStr.upper text) = true).
Proof.
  unfold completer. split; [apply completer_loop_nth|].
  intros line. rewrite completer_loop_nth.
  destruct (0 <=? state)%Z; [|done].
  destruct (completions (keys COMMANDS) text !! Z.to_nat state)
    as [keyword|] eqn:Hnth; [|done].
  intros [= <-]. exists keyword. split; [done|].
  apply list_elem_of_lookup_2, list_elem_of_In, filter_In in Hnth.
  by rewrite list_elem_of_In.
Qed.






Lemma keyword_line_dispatch (keyword arg : string) :
  keyword ∈ keys COMMANDS ->
  exists fx, getattr ("do_" +:+ PyStr.lower keyword) = Some fx
    /\ handle_command (keyword +:+ " " +:+ arg) = fx (Some arg).
Proof.
  intros Hin. rewrite COMMANDS_keys in Hin.
  repeat (apply elem_of_cons in Hin as [->|Hin];
    [eexists; split; [reflexivity|];
     by rewrite (handle_command_arg _ _ arg) by reflexivity|]).
  by apply elem_of_nil in Hin.
Qed.

(** X3. Dispatch by keyword: a registered keyword followed by a space
    calls the command of that name with all the text after that first
    space, further spaces included, as its argument; the keyword alone
    calls it with [None]. *)
Theorem handle_command_by_keyword (keyword : string) :
  keyword ∈ keys COMMANDS ->
  exists fx, getattr ("do_" +:+ PyStr.lower keyword) = Some fx
    /\ (forall arg : string,
          handle_command (keyword +:+ " " +:+ arg) = fx (Some arg))
    /\ handle_command keyword = fx None.
Proof.
  intros Hin. rewrite COMMANDS_keys in Hin.
  repeat (apply elem_of_cons in Hin as [->|Hin];
    [eexists; split; [reflexivity|]; split;
     [intros arg; by rewrite (handle_command_arg _ _ arg) by reflexivity
     |by rewrite handle_command_keyword by (discriminate || reflexivity)]|]).
  by apply elem_of_nil in Hin.
Qed.

(** X4. A completed line is a command line: what [completer] returns is
    dispatched to the command of the completed keyword, which receives the
    empty string, not [None], as its argument. *)
Theorem completer_then_handle_command (text line : string) (state : Z) :
  completer text state = Some line ->
  exists keyword fx,
    line = keyword +:+ " "
    /\ getattr ("do_" +:+ PyStr.lower keyword) = Some fx
    /\ handle_command line = fx (Some EmptyString).
Proof.
  unfold completer. rewrite completer_loop_nth.
  destruct (0 <=? state)%Z; [|done].
  destruct (completions (keys COMMANDS) text !! Z.to_nat state)
    as [keyword|] eqn:Hnth; [|done].
  intros [= <-].
  apply list_elem_of_lookup_2, list_elem_of_In, filter_In in Hnth as [Hin _].
  apply list_elem_of_In in Hin.
  destruct (keyword_line_dispatch keyword EmptyString Hin) as (fx & Hfx & Hrun).
  by exists keyword, fx.
Qed.

(** X5. Keywords are matched as typed: a line whose first character is
    not an upper-case ASCII letter is never taken for a command, it is
    searched for as it is. *)
Theorem handle_command_needs_capital (c : ascii) (rest : string) :
  PyStr.lower_ascii c = c ->
  handle_command (String c rest) = do_search (Some (String c rest)).
Proof.
  intros Hc. apply handle_command_default; [done|].
  destruct c as [[] [] [] [] [] [] [] []];
    try discriminate Hc; reflexivity.
Qed.

End Registry.

(** ** Mappings: assignment and lookup *)

Section Mappings.

Lemma assoc_dict_set {A} (key k : string) (v : A) (d : list (string * A)) :
  assoc k (dict_set key v d)
  = if String.eqb k key then Some v else assoc k d.
Proof.
  induction d as [|[k' x] d IH]; cbn [dict_set assoc].
  - by destruct (String.eqb k key).
  - destruct (String.eqb_spec key k') as [->|Hne]; cbn [assoc].
    + by destruct (String.eqb k k').
    + rewrite IH. destruct (String.eqb_spec k k') as [->|_]; [|done].
      by rewrite (proj2 (String.eqb_neq k' key)) by done.
Qed.

Lemma dict_set_keys {A} (key : string) (v : A) (d : list (string * A)) :
  keys (dict_set key v d)
  = if bool_decide (key ∈ keys d) then keys d else keys d ++ [key].
Proof.
  unfold keys. induction d as [|[k x] d IH]; cbn [dict_set fmap list_fmap fst].
  - done.
  - destruct (String.eqb_spec key k) as [->|Hne]; cbn [fmap list_fmap fst].
    + rewrite bool_decide_true; [done|]. apply elem_of_cons. by left.
    + rewrite IH. destruct (bool_decide (key ∈ d.*1)) eqn:Hin.
      * apply bool_decide_eq_true in Hin. rewrite bool_decide_true; [done|].
        apply elem_of_cons. by right.
      * apply bool_decide_eq_false in Hin. rewrite bool_decide_false; [done|].
        intros [?|?]%elem_of_cons; done.
Qed.

Lemma dict_set_keys_elem {A} (key k : string) (v : A) (d : list (string * A)) :
  k ∈ keys (dict_set key v d) <-> k = key \/ k ∈ keys d.
Proof.
  rewrite dict_set_keys. case_bool_decide as Hin.
  - split; [tauto|]. by intros [->|?].
  - rewrite elem_of_app, list_elem_of_singleton. tauto.
Qed.

Lemma dict_set_keys_NoDup {A} (key : string) (v : A) (d : list (string * A)) :
  NoDup (keys d) -> NoDup (keys (dict_set key v d)).
Proof.
  intros Hd. rewrite dict_set_keys. case_bool_decide as Hin; [done|].
  apply NoDup_app. split; [done|]. split; [|apply NoDup_singleton].
  intros k Hk ->%list_elem_of_singleton. done.
Qed.

(** The keyword a function of the class is registered under. *)
Lemma inspect_commands_keys (members : list (string * option string))
  (commands : list (string * string)) (k : string) :
  k ∈ keys (_inspect_commands members commands)
  <-> k ∈ keys commands
      \/ exists name doc, (name, doc) ∈ members
           /\ PyStr.startswith name "do_" = true
           /\ k = PyStr.upper (PyStr.drop 3 name).
Proof.
  revert commands. induction members as [|[name doc] members IH];
    intros commands; cbn [_inspect_commands].
  - split; [tauto|]. intros [?|(? & ? & []%elem_of_nil & _)]. done.
  - destruct (PyStr.startswith name "do_") eqn:Hdo; rewrite IH.
    + rewrite dict_set_keys_elem. split.
      * intros [[->|?]|(n & d & Hin & ? & ?)]; [right|by left|right].
        -- exists name, doc. split; [apply elem_of_cons; by left|done].
        -- exists n, d. split; [apply elem_of_cons; by right|done].
      * intros [?|(n & d & [[= -> ->]|Hin]%elem_of_cons & ? & ->)]; eauto 8.
    + split.
      * intros [?|(n & d & Hin & ? & ?)]; [by left|right].
        exists n, d. split; [apply elem_of_cons; by right|done].
      * intros [?|(n & d & [[= -> ->]|Hin]%elem_of_cons & Hn & ->)];
          [by left|congruence|eauto 8].
Qed.

Lemma inspect_commands_NoDup (members : list (string * option string))
  (commands : list (string * string)) :
  NoDup (keys commands) -> NoDup (keys (_inspect_commands members commands)).
Proof.
  revert commands. induction members as [|[name doc] members IH];
    intros commands Hnodup; cbn [_inspect_commands]; [done|].
  destruct (PyStr.startswith name "do_"); apply IH; [|done].
  by apply dict_set_keys_NoDup.
Qed.

(** X6. The registry, whatever the functions of the class: its keywords
    are exactly the names of the functions that start with [do_], with
    that prefix taken off and in upper case, and no keyword is registered
    twice. *)
Theorem inspect_commands_registry (members : list (string * option string)) :
  NoDup (keys (_inspect_commands members []))
  /\ forall k : string,
       k ∈ keys (_inspect_commands members [])
       <-> exists name doc, (name, doc) ∈ members
             /\ PyStr.startswith name "do_" = true
             /\ k = PyStr.upper (PyStr.drop 3 name).
Proof.
  split.
  - apply inspect_commands_NoDup. constructor.
  - intros k. rewrite inspect_commands_keys. split; [|by right].
    by intros [[]%elem_of_nil|?].
Qed.

Lemma inspect_commands_assoc_other
  (members : list (string * option string))
  (commands : list (string * string)) (k : string) :
  (forall name doc, (name, doc) ∈ members ->
     PyStr.startswith name "do_" = true ->
     PyStr.upper (PyStr.drop 3 name) ≠ k) ->
  assoc k (_inspect_commands members commands) = assoc k commands.
Proof.
  revert commands. induction members as [|[name doc] members IH];
    intros commands Hother; cbn [_inspect_commands]; [done|].
  assert (Hrest : forall n d, (n, d) ∈ members ->
            PyStr.startswith n "do_" = true ->
            PyStr.upper (PyStr.drop 3 n) ≠ k).
  { intros n d Hin. apply (Hother n d), elem_of_cons. by right. }
  destruct (PyStr.startswith name "do_") eqn:Hdo; rewrite IH by done; [|done].
  rewrite assoc_dict_set.
  rewrite (proj2 (String.eqb_neq _ _)); [done|].
  intros Heq. apply (Hother name doc); [apply elem_of_cons; by left|done|done].
Qed.

(** X7. The description of a keyword is the docstring of the last
    function registered under it, or the empty string when that function
    has none: a function that comes later under the same keyword replaces
    the description, without an error. *)
Theorem inspect_commands_last_wins
  (before after : list (string * option string))
  (name : string) (doc : option string) :
  PyStr.startswith name "do_" = true ->
  (forall n d, (n, d) ∈ after ->
     PyStr.startswith n "do_" = true ->
     PyStr.upper (PyStr.drop 3 n) ≠ PyStr.upper (PyStr.drop 3 name)) ->
  assoc (PyStr.upper (PyStr.drop 3 name))
        (_inspect_commands (before ++ (name, doc) :: after) [])
  = Some (default EmptyString doc).
Proof.
  intros Hdo Hafter. generalize (@nil (string * string)).
  induction before as [|[n d] before IH]; intros commands.
  - cbn [app _inspect_commands]. rewrite Hdo.
    rewrite inspect_commands_assoc_other by done.
    by rewrite assoc_dict_set, String.eqb_refl.
  - cbn [app _inspect_commands]. destruct (PyStr.startswith n "do_"); apply IH.
Qed.

End Mappings.

(** ** The other commands *)

Section MoreCommands.
Context `{Collaborators}.

Lemma for_each_print {A} (l : list A) (line : A -> list string) :
  for_each l (fun x => print (line x))
  = Run ((fun x => Print (line x)) <$> l) (Returns tt).
Proof.
  induction l as [|x l IH]; [done|]. cbn [for_each]. by rewrite IH.
Qed.

(** X8. REVERSE hands its two numbers to the reverse search in the order
    typed, the first as the latitude and the second as the longitude, and
    prints one line per result in the order the engine gives them. With
    anything else than two numbers it raises [ValueError] and the engine
    is not called; with no argument it raises [AttributeError]. *)
Theorem do_reverse_positional (latlon : string) :
  (forall (a b : string) (lat lon : float),
     PyStr.words latlon = [a; b] ->
     float_of_str a = Some lat -> float_of_str b = Some lon ->
     do_reverse (Some latlon)
     = Run (Call_reverse lat lon :: (reverse_print <$> reverse lat lon))
           (Returns tt))
  /\ (not_two_floats latlon ->
      do_reverse (Some latlon) = Run [] (Raises ValueError))
  /\ do_reverse None = Run [] (Raises AttributeError).
Proof.
  split; [|split; [|done]].
  - intros a b lat lon Hwords Hlat Hlon. unfold do_reverse, pyfloat.
    rewrite Hwords, Hlat, Hlon, !bind_ret, bind_emit.
    by rewrite for_each_print.
  - unfold not_two_floats, do_reverse, pyfloat.
    destruct (PyStr.words latlon) as [|a [|b [|c l]]]; try done.
    intros [Ha|Hb].
    + by rewrite Ha.
    + rewrite Hb. by destruct (float_of_str a).
Qed.


(** X10. DBKEY asks for the type of the key and reads further only a set
    or a hash, whose content it prints; a key that is absent is reported
    with the type [none] and a sorted set with the type [zset], both as an
    unsupported type, with no further read. In each case it prints two
    lines and raises nothing. *)
Theorem do_dbkey_by_type (key : string) :
  (lookup_key key = None ->
   do_dbkey (Some key)
   = Run [DB_type key; Print ["type:"; magenta (PStr "none")];
          Print ["value:"; white (PStr "Unsupported type none")]] (Returns tt))
  /\ (forall members, lookup_key key = Some (VZset members) ->
      do_dbkey (Some key)
      = Run [DB_type key; Print ["type:"; magenta (PStr "zset")];
             Print ["value:"; white (PStr "Unsupported type zset")]]
            (Returns tt))
  /\ (forall members, lookup_key key = Some (VSet members) ->
      do_dbkey (Some key)
      = Run [DB_type key; DB_smembers key;
             Print ["type:"; magenta (PStr "set")];
             Print ["value:"; white (PSet (PBytes <$> members))]] (Returns tt))
  /\ (forall fields, lookup_key key = Some (VHash fields) ->
      do_dbkey (Some key)
      = Run [DB_type key; DB_hgetall key;
             Print ["type:"; magenta (PStr "hash")];
             Print ["value:"; white (bytes_dict fields)]] (Returns tt)).
Proof.
  unfold do_dbkey, db_type, redis_key.
  repeat split; intros;
    match goal with Hk : lookup_key key = _ |- _ =>
      rewrite Hk, bind_emit; cbn [ret trace outcome];
      rewrite bind_returns; unfold smembers, hgetall; rewrite ?Hk
    end; reflexivity.
Qed.

Lemma for_each_getitem (info : list (string * pyobj)) (l : list string) :
  Forall (fun key => is_Some (assoc key info)) l ->
  for_each l (fun key =>
    v ← getitem info key;
    print [white (PStr key) +:+ ": " +:+ blue v])
  = Run (dbinfo_print info <$> l) (Returns tt).
Proof.
  induction 1 as [|key l [v Hv] _ IH]; [done|].
  cbn [for_each]. rewrite IH. unfold getitem, dbinfo_print.
  cbn [fmap list_fmap]. by rewrite Hv.
Qed.

(** X11. DBINFO, when the store reports the six statistics it shows:
    it prints them, one line each and in its own order, then the number of
    keys of database 0. When the store reports no database 0, as it does
    while the database is empty, the six lines are printed and [KeyError]
    is raised. *)
Theorem do_dbinfo_lines (arg : pyarg) :
  Forall (fun key => is_Some (assoc key (server_info DB))) dbinfo_keys ->
  (assoc "db0" (server_info DB) = None ->
   do_dbinfo arg
   = Run (DB_info :: (dbinfo_print (server_info DB) <$> dbinfo_keys))
         (Raises KeyError))
  /\ (forall (db0 : list (pyobj * pyobj)) (n : pyobj),
        assoc "db0" (server_info DB) = Some (PDict db0) ->
        dict_assoc "keys" db0 = Some n ->
        do_dbinfo arg
        = Run (DB_info :: (dbinfo_print (server_info DB) <$> dbinfo_keys)
               ++ [Print [white (PStr "nb keys") +:+ ": " +:+ blue n]])
              (Returns tt)).
Proof.
  intros Hstats. unfold do_dbinfo.
  change db_info with (Run [DB_info] (Returns (server_info DB))).
  rewrite bind_returns, (for_each_getitem _ _ Hstats), bind_returns.
  unfold getitem. split.
  - by intros ->.
  - intros db0 n -> Hn. rewrite bind_ret. unfold subscript. by rewrite Hn.
Qed.

End MoreCommands.

Section MoreCommands2.
Context `{Collaborators}.

Lemma sort_insert_perm (x : string) (l : list string) :
  sort_insert x l ≡ₚ x :: l.
Proof.
  induction l as [|y l IH]; cbn [sort_insert]; [done|].
  destruct (String.leb x y); [done|]. rewrite IH. apply Permutation_swap.
Qed.

Lemma sort_perm (l : list string) : sort l ≡ₚ l.
Proof.
  induction l as [|x l IH]; [done|]. unfold sort in *. cbn [foldr].
  by rewrite sort_insert_perm, IH.
Qed.

Lemma sort_insert_hd (x a : string) (l : list string) :
  String.leb a x = true ->
  HdRel (fun a b => String.leb a b = true) a l ->
  HdRel (fun a b => String.leb a b = true) a (sort_insert x l).
Proof.
  intros Hax Hal. destruct l as [|y l]; cbn [sort_insert].
  - by constructor.
  - destruct (String.leb x y); constructor; [done|]. by inversion Hal.
Qed.

Lemma sort_insert_sorted (x : string) (l : list string) :
  Sorted (fun a b => String.leb a b = true) l ->
  Sorted (fun a b => String.leb a b = true) (sort_insert x l).
Proof.
  intros Hl. induction Hl as [|y l Hl IH Hy]; cbn [sort_insert].
  - by repeat constructor.
  - destruct (String.leb x y) eqn:Hxy.
    + constructor; [by constructor|]. by constructor.
    + constructor; [done|]. apply sort_insert_hd; [|done].
      destruct (String.leb_total x y) as [Hle|Hle]; [congruence|done].
Qed.

Lemma sort_sorted (l : list string) :
  Sorted (fun a b => String.leb a b = true) (sort l).
Proof.
  induction l as [|x l IH]; [constructor|]. unfold sort in *. cbn [foldr].
  by apply sort_insert_sorted.
Qed.

Lemma smembers_set (key : string) (members : list string) :
  lookup_key key = Some (VSet members) ->
  smembers key = Run [DB_smembers key] (Returns members).
Proof. unfold smembers. by intros ->. Qed.

Lemma smembers_absent (key : string) :
  lookup_key key = None -> smembers key = Run [DB_smembers key] (Returns []).
Proof. unfold smembers. by intros ->. Qed.

(** X12. PAIR prints the members of the pair set of the first token, all
    of them and each as many times as the store gives it, in ascending
    byte order, and then their number; for a token that has no pair set it
    prints the empty list and the number 0. *)
Theorem do_pair_sorted (word : pyarg) (token : string) (rest : list string) :
  preprocess_query word = token :: rest ->
  (forall members, lookup_key (pair_key token) = Some (VSet members) ->
     do_pair word
     = Run [Call_preprocess_query word; DB_smembers (pair_key token);
            Print [white (PList (PStr <$> sort members))];
            Print [magenta (PStr ("(Total: "
                     +:+ str (PInt (Z.of_nat (length members))) +:+ ")"))]]
           (Returns tt)
     /\ sort members ≡ₚ members
     /\ Sorted (fun a b => String.leb a b = true) (sort members))
  /\ (lookup_key (pair_key token) = None ->
      do_pair word
      = Run [Call_preprocess_query word; DB_smembers (pair_key token);
             Print [white (PList [])];
             Print [magenta (PStr ("(Total: " +:+ str (PInt 0) +:+ ")"))]]
            (Returns tt)).
Proof.
  intros Htokens. unfold do_pair.
  rewrite indexed_string_run, bind_returns, Htokens.
  change (index (token :: rest) 0) with (ret token).
  rewrite bind_ret. split.
  - intros members Hset.
    split; [|split; [apply sort_perm|apply sort_sorted]].
    rewrite (smembers_set _ _ Hset), bind_returns. cbv zeta.
    by rewrite (Permutation_length (sort_perm members)).
  - intros Hnone. by rewrite (smembers_absent _ Hnone), bind_returns.
Qed.

Lemma comprehension_index {A} (l : list A) (g : A -> option string) :
  comprehension l (fun k => match g k with
                            | Some x => ret x
                            | None => raise IndexError
                            end)
  = match mapM g l with
    | Some ys => Run [] (Returns ys)
    | None => Run [] (Raises IndexError)
    end.
Proof.
  induction l as [|k l IH]; [done|]. cbn [comprehension mapM].
  rewrite IH. destruct (g k) as [x|]; [|done]. rewrite bind_ret.
  by destruct (mapM g l).
Qed.

(** X13. AUTOCOMPLETE shows, for each autocomplete key of the first
    token, what stands between the first bar of the key and the next, in
    the order of the keys, and then the number of keys. When one key holds
    no bar it raises [IndexError] and prints nothing. *)
Theorem do_autocomplete_completions (s : pyarg) (token : string)
  (rest : list string) :
  preprocess_query s = token :: rest ->
  (forall shown : list string,
     Forall2 (fun key c => completion_of key = Some c)
             (autocomplete_keys token) shown ->
     do_autocomplete s
     = Run [Call_preprocess_query s; Call_autocomplete token;
            Print [white (PList (PStr <$> shown))];
            Print [magenta (PStr ("(" +:+ str (PInt (Z.of_nat
                     (length (autocomplete_keys token)))) +:+ " elements)"))]]
           (Returns tt))
  /\ ((exists key, key ∈ autocomplete_keys token /\ PyStr.count "|" key = 0) ->
      do_autocomplete s
      = Run [Call_preprocess_query s; Call_autocomplete token]
            (Raises IndexError)).
Proof.
  intros Htokens. unfold do_autocomplete.
  rewrite indexed_string_run, bind_returns, Htokens.
  change (index (token :: rest) 0) with (ret token).
  rewrite bind_ret, bind_emit.
  change (fun k => index (PyStr.split "|" k) 1)
    with (fun k => match completion_of k with
                   | Some x => ret x
                   | None => raise IndexError
                   end).
  rewrite comprehension_index. split.
  - intros shown Hshown. rewrite (Forall2_length _ _ _ Hshown).
    apply mapM_Some in Hshown. by rewrite Hshown.
  - intros (key & Hin & Hcount).
    destruct (mapM completion_of (autocomplete_keys token)) as [ys|] eqn:Hm;
      [|done].
    apply mapM_Some in Hm.
    apply list_elem_of_lookup in Hin as [i Hi].
    destruct (Forall2_lookup_l _ _ _ i key Hm Hi) as (c & _ & Hc).
    unfold completion_of in Hc. apply lookup_lt_Some in Hc.
    rewrite (split_length_count "|" key), Hcount in Hc. lia.
Qed.

End MoreCommands2.

Section MoreCommands3.
Context `{Collaborators}.

(** X14. FREQUENCY, AUTOCOMPLETE, BESTSCORE and PAIR look at the first
    token only: two arguments whose tokenizations begin with the same
    token give, once the tokenizer has been called, the same events and
    the same outcome. *)
Theorem commands_use_first_token_only (word1 word2 : pyarg)
  (token : string) (rest1 rest2 : list string) :
  preprocess_query word1 = token :: rest1 ->
  preprocess_query word2 = token :: rest2 ->
  Forall (fun fx : method =>
            drop 1 (trace (fx word1)) = drop 1 (trace (fx word2))
            /\ outcome (fx word1) = outcome (fx word2))
         [do_frequency; do_autocomplete; do_bestscore; do_pair].
Proof.
  intros Hword1 Hword2.
  repeat (apply Forall_cons; split); [| | | |constructor].
  - unfold do_frequency, word_frequency.
    rewrite !indexed_string_run, !bind_returns, Hword1, Hword2.
    split; reflexivity.
  - unfold do_autocomplete.
    rewrite !indexed_string_run, !bind_returns, Hword1, Hword2.
    split; reflexivity.
  - unfold do_bestscore.
    rewrite !indexed_string_run, !bind_returns, Hword1, Hword2.
    split; reflexivity.
  - unfold do_pair.
    rewrite !indexed_string_run, !bind_returns, Hword1, Hword2.
    split; reflexivity.
Qed.

Lemma parse_center_cases (query : string) :
  parse_center query = Run [] (Raises ValueError)
  \/ exists q lat lon, parse_center query = Run [] (Returns (q, lat, lon)).
Proof.
  unfold parse_center, pyfloat.
  destruct (PyStr.contains "CENTER" query); [|right; by eexists _, _, _].
  destruct (PyStr.split "CENTER" query) as [|a [|b [|c l]]]; try by left.
  destruct (PyStr.words b) as [|x [|y [|z l]]]; try by left.
  destruct (float_of_str x); [|by left].
  destruct (float_of_str y); [|by left].
  right. by eexists _, _, _.
Qed.

(** X15. SEARCH and EXPLAIN on a text either raise [ValueError] before
    anything else happens, or call the search engine once, print one line
    per result in the order the engine gives them, print the elapsed time
    and return. The two differ by the verbose flag only: one raises exactly
    when the other does. With no argument both raise [TypeError]. *)
Theorem search_calls_engine_once (query : string) (verbose : bool) :
  (_search (Some query) verbose = Run [] (Raises ValueError)
   \/ exists q lat lon,
        _search (Some query) verbose
        = Run (Call_search q verbose lat lon
               :: (result_print <$> search q verbose lat lon)
               ++ [Print_elapsed]) (Returns tt))
  /\ outcome (do_search (Some query)) = outcome (do_explain (Some query))
  /\ do_search None = Run [] (Raises TypeError)
  /\ do_explain None = Run [] (Raises TypeError).
Proof.
  assert (Hrun : forall v,
    _search (Some query) v = Run [] (Raises ValueError)
    \/ exists q lat lon,
         _search (Some query) v
         = Run (Call_search q v lat lon
                :: (result_print <$> search q v lat lon) ++ [Print_elapsed])
               (Returns tt)).
  { intros v. rewrite _search_parse.
    destruct (parse_center_cases query) as [->|(q & lat & lon & ->)];
      [by left|right].
    exists q, lat, lon. rewrite bind_returns. unfold forwarded.
    by rewrite for_each_print. }
  split; [apply Hrun|]. split; [|done].
  unfold do_search, do_explain. rewrite !_search_parse.
  destruct (parse_center_cases query) as [->|(q & lat & lon & ->)]; [done|].
  rewrite !bind_returns. unfold forwarded. by rewrite !for_each_print.
Qed.

(** X16. INDEX takes the four fields one at a time: on a document that
    is not in the store, or that has no name, it raises [KeyError] right
    after reading the document; on a document that has a name and no
    postcode it has already shown the tokens of the name when it
    raises. *)
Theorem do_index_stops_at_missing_field (_id : pyarg) :
  token_keys_hold_sorted_sets ->
  (lookup_key (document_key _id) = None ->
   do_index _id = Run [DB_hgetall (document_key _id)] (Raises KeyError))
  /\ (forall doc, document _id = Some doc -> assoc "name" doc = None ->
      do_index _id = Run [DB_hgetall (document_key _id)] (Raises KeyError))
  /\ (forall doc name, document _id = Some doc ->
      assoc "name" doc = Some name -> assoc "postcode" doc = None ->
      do_index _id
      = Run (DB_hgetall (document_key _id) :: field_events _id name)
            (Raises KeyError)).
Proof.
  intros Hkeys.
  assert (Hname : forall doc, document _id = Some doc ->
            assoc "name" doc = None ->
            do_index _id
            = Run [DB_hgetall (document_key _id)] (Raises KeyError)).
  { intros doc Hdoc Hnone. unfold do_index, getitem.
    by rewrite (doc_by_id_document _ _ Hdoc), bind_returns, Hnone. }
  split; [|split; [done|]].
  - intros Hmissing. apply (Hname []); [|done].
    unfold document. by rewrite Hmissing.
  - intros doc name Hdoc Hsome Hnone. unfold do_index, getitem.
    rewrite (doc_by_id_document _ _ Hdoc), bind_returns, Hsome, bind_ret.
    rewrite print_field_index_details_events by done.
    rewrite bind_returns, Hnone. cbn [trace outcome raise].
    by rewrite app_nil_r.
Qed.

Lemma words_from_solid (cur t rest : string) :
  solid t = true ->
  PyStr.words_from cur (t +:+ rest) = PyStr.words_from (cur +:+ t) rest.
Proof.
  revert cur. induction t as [|c t IH]; intros cur.
  - intros _. by rewrite append_nil_r.
  - cbn [solid]. intros [Hc Ht]%andb_prop. apply negb_true_iff in Hc.
    rewrite append_cons. cbn [PyStr.words_from]. rewrite Hc, IH by done.
    by rewrite append_assoc.
Qed.

Lemma words_join (tokens : list string) :
  Forall (fun t => is_word t = true) tokens ->
  PyStr.words (PyStr.join " " tokens) = tokens.
Proof.
  unfold PyStr.words. induction 1 as [|t tokens Ht _ IH]; [done|].
  assert (Hsolid : solid t = true) by (by destruct t).
  destruct tokens as [|t2 tokens].
  - cbn [PyStr.join]. rewrite <- (append_nil_r t) at 1.
    rewrite words_from_solid by done. by destruct t.
  - change (PyStr.join " " (t :: t2 :: tokens))
      with (t +:+ " " +:+ PyStr.join " " (t2 :: tokens)).
    rewrite words_from_solid by done.
    change (" " +:+ PyStr.join " " (t2 :: tokens))
      with (String " " (PyStr.join " " (t2 :: tokens))).
    cbn [PyStr.words_from].
    change (PyStr.is_space " ") with true. cbv iota.
    rewrite IH. by destruct t.
Qed.

(** X17. TOKENIZE calls the tokenizer once and prints one line, the
    tokens joined by single spaces, whatever the argument; when the tokens
    are words (not empty, no whitespace in them) splitting that line on
    whitespace gives the tokens back. *)
Theorem do_tokenize_line (s : pyarg) :
  do_tokenize s
  = Run [Call_preprocess_query s;
         Print [white (PStr (PyStr.join " " (preprocess_query s)))]]
        (Returns tt)
  /\ (Forall (fun t => is_word t = true) (preprocess_query s) ->
      PyStr.words (PyStr.join " " (preprocess_query s)) = preprocess_query s).
Proof. split; [done|apply words_join]. Qed.

End MoreCommands3.

(** ** The read loop, from start to end *)

Section Shell.
Context `{Collaborators}.

Lemma loop_line (command : string) (rest : list input) :
  loop (Line command :: rest)
  = match outcome (handle_command command) with
    | Returns _ =>
        Run (Prompt "> " :: trace (handle_command command)
             ++ trace separator ++ trace (loop rest))
            (outcome (loop rest))
    | Raises KeyboardInterrupt | Raises EOFError =>
        Run (Prompt "> " :: trace (handle_command command)
             ++ [farewell_print]) (Returns tt)
    | Raises e =>
        Run (Prompt "> " :: trace (handle_command command)) (Raises e)
    end.
Proof.
  cbn [loop]. destruct (outcome (handle_command command)) as [[]|[]]; done.
Qed.

Lemma loop_trace_prompt (inputs : list input) :
  exists t, trace (loop inputs) = Prompt "> " :: t.
Proof.
  destruct inputs as [|[command|] rest]; [by eexists|..|by eexists].
  rewrite loop_line.
  destruct (outcome (handle_command command)) as [[]|[]]; by eexists.
Qed.

(** X18. How the shell ends. When the loop returns, the last thing it
    printed is the farewell; when it ends by an exception, that exception
    is neither the interrupt nor the end of input, which the loop always
    catches. The same holds of the whole shell, which prints the help
    first. *)
Theorem loop_ends (inputs : list input) :
  (outcome (loop inputs) = Returns tt ->
     last (trace (loop inputs)) = Some farewell_print)
  /\ (forall e, outcome (loop inputs) = Raises e ->
        e ≠ KeyboardInterrupt /\ e ≠ EOFError)
  /\ (outcome (__call__ inputs) = Returns tt ->
        last (trace (__call__ inputs)) = Some farewell_print)
  /\ (forall e, outcome (__call__ inputs) = Raises e ->
        e ≠ KeyboardInterrupt /\ e ≠ EOFError)
  /\ trace (__call__ inputs) = trace (do_help None) ++ trace (loop inputs).
Proof.
  assert (Hloop :
    (outcome (loop inputs) = Returns tt ->
       last (trace (loop inputs)) = Some farewell_print)
    /\ (forall e, outcome (loop inputs) = Raises e ->
          e ≠ KeyboardInterrupt /\ e ≠ EOFError)).
  { induction inputs as [|[command|] rest [IHret IHraise]]; [done| |done].
    rewrite loop_line.
    destruct (outcome (handle_command command)) as [[]|e] eqn:Hout.
    - cbn [outcome trace]. split; [|done].
      intros Hret. destruct (loop_trace_prompt rest) as [t Ht].
      rewrite app_comm_cons, app_assoc, last_app, IHret by done. done.
    - destruct e; cbn [outcome trace]; split; try done;
        try (intros _; by rewrite app_comm_cons, last_app);
        intros e' [= <-]; done. }
  assert (Hcall : __call__ inputs
            = Run (trace (do_help None) ++ trace (loop inputs))
                  (outcome (loop inputs))) by done.
  destruct Hloop as [Hret Hraise]. rewrite Hcall. cbn [trace outcome].
  split; [done|]. split; [done|]. split; [|done].
  intros Hout. destruct (loop_trace_prompt inputs) as [t Ht].
  by rewrite last_app, Hret.
Qed.

(** X19. What the loop does not read. After an interrupt the rest of the
    input is not read, and the loop ends as it does at the end of the
    input; after a line whose command raises, the rest is not read
    either. *)
Theorem loop_reads_no_further (before after : list input) :
  loop (before ++ Interrupt :: after) = loop before
  /\ (forall (command : string) (e : exn),
        outcome (handle_command command) = Raises e ->
        loop (before ++ Line command :: after)
        = loop (before ++ [Line command])).
Proof.
  split.
  - induction before as [|[command|] before IH]; [done| |done].
    cbn [app]. by rewrite !loop_line, IH.
  - intros command e Hraise.
    induction before as [|[c|] before IH]; [|..|done].
    + cbn [app]. rewrite !loop_line, Hraise. by destruct e.
    + cbn [app]. by rewrite !loop_line, IH.
Qed.

End Shell.

(** ** Splitting and joining *)

Section Strings.

Lemma split_from_cons (sep cur s : string) (k : nat) :
  exists x xs, PyStr.split_from sep k cur s = x :: xs.
Proof.
  revert k cur. induction s as [|c s IH]; intros k cur; [by eexists _, _|].
  cbn [PyStr.split_from]. destruct k; [|apply IH].
  destruct (PyStr.is_prefix sep (String c s)); [by eexists _, _|apply IH].
Qed.

Lemma join_cons_split (sep x a : string) :
  PyStr.join sep (x :: PyStr.split sep a)
  = x +:+ sep +:+ PyStr.join sep (PyStr.split sep a).
Proof.
  unfold PyStr.split.
  destruct (split_from_cons sep EmptyString a 0) as (y & ys & ->). done.
Qed.

Lemma length_append (s t : string) :
  String.length (s +:+ t) = String.length s + String.length t.
Proof.
  induction s as [|c s IH]; [done|]. rewrite append_cons. cbn. by rewrite IH.
Qed.

Lemma join_split_from (c : ascii) (sep : string) (n : nat) (cur s : string) :
  String.length s <= n ->
  PyStr.join (String c sep) (PyStr.split_from (String c sep) 0 cur s)
  = cur +:+ s.
Proof.
  revert cur s. induction n as [|n IH]; intros cur s Hlen.
  - destruct s; [|cbn in Hlen; lia]. cbn. by rewrite append_nil_r.
  - rewrite split_from_partition.
    destruct (PyStr.partition (String c sep) s) as [[b a]|] eqn:Hpart; [|done].
    destruct (partition_first _ _ _ _ _ Hpart) as [-> _].
    rewrite join_cons_split. unfold PyStr.split. rewrite IH.
    + by rewrite !append_assoc.
    + rewrite !length_append in Hlen. cbn [String.length] in Hlen. lia.
Qed.

(** X20. Splitting loses nothing: the pieces of a string split on a
    separator, joined again by that separator, are the string; so
    replacing a text by itself changes nothing, and a string that splits
    in two is the first piece, the separator and the second piece. *)
Theorem join_split (c : ascii) (sep s : string) :
  PyStr.join (String c sep) (PyStr.split (String c sep) s) = s
  /\ PyStr.replace (String c sep) (String c sep) s = s
  /\ (forall one two, PyStr.split (String c sep) s = [one; two] ->
        s = one +:+ String c sep +:+ two).
Proof.
  assert (Hjoin : PyStr.join (String c sep) (PyStr.split (String c sep) s) = s)
    by (unfold PyStr.split; by rewrite (join_split_from c sep (String.length s))).
  split; [done|]. split; [done|].
  intros one two Hsplit. by rewrite Hsplit in Hjoin.
Qed.

Lemma contains_char_cons (c x : ascii) (s : string) :
  PyStr.contains (String c EmptyString) (String x s)
  = Ascii.eqb c x || PyStr.contains (String c EmptyString) s.
Proof.
  unfold PyStr.contains. cbn [PyStr.partition PyStr.is_prefix].
  rewrite andb_true_r. destruct (Ascii.eqb c x); [done|].
  by destruct (PyStr.partition (String c EmptyString) s) as [[]|].
Qed.

Lemma contains_char_append (c : ascii) (s t : string) :
  PyStr.contains (String c EmptyString) (s +:+ t)
  = PyStr.contains (String c EmptyString) s
    || PyStr.contains (String c EmptyString) t.
Proof.
  induction s as [|x s IH]; [done|].
  rewrite append_cons, !contains_char_cons, IH. apply orb_assoc.
Qed.

Lemma join_split_char_free (c : ascii) (cur s : string) :
  PyStr.contains (String c EmptyString) cur = false ->
  PyStr.contains (String c EmptyString)
    (PyStr.join EmptyString
       (PyStr.split_from (String c EmptyString) 0 cur s)) = false.
Proof.
  revert cur. induction s as [|x s IH]; intros cur Hcur; [done|].
  cbn [PyStr.split_from]. rewrite prefix_char.
  destruct (Ascii.eqb c x) eqn:Hcx.
  - cbn [PyStr.len String.length Nat.sub].
    destruct (split_from_cons (String c EmptyString) EmptyString s 0)
      as (y & ys & Hsplit).
    specialize (IH EmptyString eq_refl). rewrite Hsplit in *.
    change (PyStr.join EmptyString (cur :: y :: ys))
      with (cur +:+ EmptyString +:+ PyStr.join EmptyString (y :: ys)).
    by rewrite !contains_char_append, Hcur, IH.
  - apply IH. rewrite contains_char_append, Hcur, contains_char_cons, Hcx.
    done.
Qed.

(** X21. Each description HELP prints is on one line: once the line
    breaks of a docstring are replaced by nothing, no line break is left
    in it. The same holds of any character removed in that way. *)
Theorem help_description_one_line (doc : string) :
  PyStr.contains PyStr.nl
    (PyStr.replace PyStr.nl EmptyString
       (PyStr.replace (PyStr.repeat " " 8) " " doc)) = false
  /\ forall (c : ascii) (s : string),
       PyStr.contains (String c EmptyString)
         (PyStr.replace (String c EmptyString) EmptyString s) = false.
Proof.
  assert (Hfree : forall (c : ascii) (s : string),
            PyStr.contains (String c EmptyString)
              (PyStr.replace (String c EmptyString) EmptyString s) = false).
  { intros c s. by apply join_split_char_free. }
  split; [apply Hfree|done].
Qed.

End Strings.

(** ** The test fixtures *)

Section FixtureFacts.
Variable value : Type.
Variable truthy : value -> bool.
Variable of_str : string -> value.
Variable zero : value.

Local Abbreviation update := (Conftest.update value).
Local Abbreviation pop := (Conftest.pop value).
Local Abbreviation DummyDoc := (Conftest.DummyDoc value truthy).
Local Abbreviation DummyDoc_update := (Conftest.DummyDoc_update value).
Local Abbreviation defaults := (Conftest.defaults value of_str zero).
Local Abbreviation factory := (Conftest.factory value truthy of_str zero).

Lemma assoc_absent (k : string) (d : list (string * value)) :
  k ∉ keys d -> assoc k d = None.
Proof.
  unfold keys. induction d as [|[k' v] d IH]; [done|].
  cbn [fmap list_fmap fst assoc]. intros [Hne Hd]%not_elem_of_cons.
  destruct (String.eqb_spec k k'); [done|]. by apply IH.
Qed.

Lemma assoc_update (k : string) (d kwargs : list (string * value)) :
  NoDup (keys kwargs) ->
  assoc k (update d kwargs)
  = match assoc k kwargs with
    | Some v => Some v
    | None => assoc k d
    end.
Proof.
  unfold Conftest.update, keys. revert d.
  induction kwargs as [|[k' v] kwargs IH]; intros d Hnodup; [done|].
  cbn [fmap list_fmap fst] in Hnodup. apply NoDup_cons in Hnodup as [Hk' Hnodup].
  cbn [foldl fst snd assoc]. rewrite IH, assoc_dict_set by done.
  destruct (String.eqb_spec k k') as [->|_]; [|done].
  by rewrite assoc_absent.
Qed.

Lemma update_keys_NoDup (d kwargs : list (string * value)) :
  NoDup (keys d) -> NoDup (keys (update d kwargs)).
Proof.
  unfold Conftest.update. revert d.
  induction kwargs as [|[k v] kwargs IH]; intros d Hd; [done|].
  cbn [foldl]. by apply IH, dict_set_keys_NoDup.
Qed.

Lemma update_keys_prefix (d kwargs : list (string * value)) :
  keys d `prefix_of` keys (update d kwargs).
Proof.
  unfold Conftest.update. revert d.
  induction kwargs as [|[k v] kwargs IH]; intros d; [done|].
  cbn [foldl fst snd]. etrans; [|apply IH].
  rewrite dict_set_keys. case_bool_decide; [done|]. by apply prefix_app_r.
Qed.

Lemma pop_found (key : string) (d : list (string * value)) :
  (pop key d).1 = assoc key d.
Proof.
  induction d as [|[k v] d IH]; [done|]. cbn [Conftest.pop assoc].
  destruct (String.eqb key k); [done|].
  by destruct (pop key d) as [found rest].
Qed.

Lemma pop_rest (key k : string) (d : list (string * value)) :
  NoDup (keys d) ->
  assoc k (pop key d).2 = if String.eqb k key then None else assoc k d.
Proof.
  unfold keys. induction d as [|[k' v] d IH]; intros Hnodup.
  - cbn. by destruct (String.eqb k key).
  - cbn [fmap list_fmap fst] in Hnodup.
    apply NoDup_cons in Hnodup as [Hk' Hnodup]. cbn [Conftest.pop assoc].
    destruct (String.eqb_spec key k') as [->|Hne].
    + cbn [snd]. destruct (String.eqb_spec k k') as [->|_]; [|done].
      by apply assoc_absent.
    + specialize (IH Hnodup). destruct (pop key d) as [found rest].
      cbn [snd assoc] in *. rewrite IH.
      destruct (String.eqb_spec k k') as [->|_]; [|done].
      by rewrite (proj2 (String.eqb_neq k' key)) by done.
Qed.

Lemma defaults_keys_NoDup (id : string) : NoDup (keys (defaults id)).
Proof.
  cbn. repeat (apply NoDup_cons; split);
    [..|apply NoDup_nil_2]; rewrite ?not_elem_of_cons;
    repeat split; try apply not_elem_of_nil; discriminate.
Qed.

(** X22. The documents the factory builds: a field given to the factory
    has the value given; a field not given has the default of the factory
    when there is one ([id], [type], [name], [importance], [lat], [lon])
    and is absent otherwise; [skip_index] is never a field of the
    document. *)
Theorem factory_fields (id : string) (kwargs : list (string * value))
  (key : string) :
  NoDup (keys kwargs) ->
  assoc "skip_index" (factory id kwargs).1 = None
  /\ (key ≠ "skip_index" ->
      assoc key (factory id kwargs).1
      = match assoc key kwargs with
        | Some v => Some v
        | None => assoc key (defaults id)
        end).
Proof.
  intros Hnodup. unfold Conftest.factory, Conftest.DummyDoc.
  pose proof (update_keys_NoDup (defaults id) kwargs (defaults_keys_NoDup id))
    as Hkeys.
  pose proof (pop_rest "skip_index" "skip_index" _ Hkeys) as Hskip.
  pose proof (pop_rest "skip_index" key _ Hkeys) as Hkey.
  destruct (pop "skip_index" (update (defaults id) kwargs)) as [[v|] doc];
    cbn [fst snd] in *.
  - split; [by destruct (truthy v)|]. intros Hne.
    replace (if truthy v then (doc, []) else (doc, [doc])).1 with doc
      by (by destruct (truthy v)).
    rewrite Hkey, (proj2 (String.eqb_neq _ _) Hne). by apply assoc_update.
  - split; [done|]. intros Hne.
    rewrite Hkey, (proj2 (String.eqb_neq _ _) Hne). by apply assoc_update.
Qed.

(** X23. The factory and indexing: [index_document] is called once, on
    the document built, unless [skip_index] was given with a value that is
    true, in which case it is not called. *)
Theorem factory_indexes_once (id : string) (kwargs : list (string * value)) :
  NoDup (keys kwargs) ->
  (factory id kwargs).2
  = if match assoc "skip_index" kwargs with
       | Some v => truthy v
       | None => false
       end
    then []
    else [(factory id kwargs).1].
Proof.
  intros Hnodup. unfold Conftest.factory, Conftest.DummyDoc.
  pose proof (pop_found "skip_index" (update (defaults id) kwargs)) as Hfound.
  rewrite assoc_update in Hfound by done.
  destruct (pop "skip_index" (update (defaults id) kwargs)) as [found doc].
  cbn [fst] in Hfound. subst found.
  destruct (assoc "skip_index" kwargs) as [v|]; [by destruct (truthy v)|done].
Qed.

(** X24. [DummyDoc.update]: the fields given take the values given, the
    other fields keep theirs, the fields the document had keep their
    place, and the document is indexed again, once, as updated. *)
Theorem DummyDoc_update_fields (self kwargs : list (string * value))
  (key : string) :
  NoDup (keys kwargs) ->
  assoc key (DummyDoc_update self kwargs).1
  = match assoc key kwargs with
    | Some v => Some v
    | None => assoc key self
    end
  /\ keys self `prefix_of` keys (DummyDoc_update self kwargs).1
  /\ (DummyDoc_update self kwargs).2 = [(DummyDoc_update self kwargs).1].
Proof.
  intros Hnodup. unfold Conftest.DummyDoc_update. cbn [fst snd].
  split; [by apply assoc_update|]. split; [apply update_keys_prefix|done].
Qed.

End FixtureFacts.

(** ** More runs on the small indexes *)

Section RunsMore.
Local Existing Instance Demo.numbers.
Local Existing Instance Demo.collaborators.

Lemma completer_nth_match_witness :
  completer "ge" 0 = Some "GEODISTANCE "
  /\ completer "ge" 2 = Some "GET "
  /\ completer "ge" 3 = None
  /\ exists keyword, "GET " = keyword +:+ " "
       /\ keyword ∈ keys COMMANDS
       /\ PyStr.startswith keyword (PyStr.upper "ge") = true.
Proof.
  split; [reflexivity|]. split; [reflexivity|]. split; [reflexivity|].
  exact (proj2 (completer_nth_match "ge" 2) "GET " eq_refl).
Defined.

Lemma demo_GET_registered : "GET" ∈ keys COMMANDS.
Proof. rewrite COMMANDS_keys. repeat constructor. Defined.

Lemma handle_command_by_keyword_witness :
  "GET" ∈ keys COMMANDS
  /\ exists fx, getattr ("do_" +:+ PyStr.lower "GET") = Some fx
       /\ (forall arg : string, handle_command ("GET" +:+ " " +:+ arg)
                                = fx (Some arg))
       /\ handle_command "GET" = fx None.
Proof.
  split; [exact demo_GET_registered|].
  exact (handle_command_by_keyword "GET" demo_GET_registered).
Defined.

Lemma completer_then_handle_command_witness :
  completer "he" 0 = Some "HELP "
  /\ exists keyword fx,
       "HELP " = keyword +:+ " "
       /\ getattr ("do_" +:+ PyStr.lower keyword) = Some fx
       /\ handle_command "HELP " = fx (Some EmptyString).
Proof.
  split; [reflexivity|].
  exact (completer_then_handle_command "he" "HELP " 0 eq_refl).
Defined.

Lemma handle_command_needs_capital_witness :
  PyStr.lower_ascii "g" = "g"%char
  /\ handle_command "get 1" = do_search (Some "get 1").
Proof.
  split; [reflexivity|].
  exact (handle_command_needs_capital "g" "et 1" eq_refl).
Defined.

Lemma inspect_commands_registry_witness :
  NoDup (keys (_inspect_commands
                 [("do_get", Some "a"); ("prompt", None); ("do_get", None)] []))
  /\ ("GET" ∈ keys (_inspect_commands
                      [("do_get", Some "a"); ("prompt", None); ("do_get", None)]
                      [])
      <-> exists name doc,
            (name, doc) ∈ [("do_get", Some "a"); ("prompt", None);
                           ("do_get", None)]
            /\ PyStr.startswith name "do_" = true
            /\ "GET" = PyStr.upper (PyStr.drop 3 name)).
Proof.
  split.
  - exact (proj1 (inspect_commands_registry
                    [("do_get", Some "a"); ("prompt", None); ("do_get", None)])).
  - exact (proj2 (inspect_commands_registry
                    [("do_get", Some "a"); ("prompt", None); ("do_get", None)])
             "GET").
Defined.

Lemma inspect_commands_last_wins_witness :
  PyStr.startswith "do_get" "do_" = true
  /\ assoc "GET" (_inspect_commands
                    ([("do_get", Some "a")] ++ ("do_get", None)
                     :: [("prompt", None); ("do_help", Some "h")]) [])
     = Some EmptyString.
Proof.
  split; [reflexivity|].
  apply (inspect_commands_last_wins [("do_get", Some "a")]
           [("prompt", None); ("do_help", Some "h")] "do_get" None eq_refl).
  intros n d Hin Hdo.
  apply elem_of_cons in Hin as [[= -> ->]|Hin]; [discriminate Hdo|].
  apply list_elem_of_singleton in Hin as [= -> ->]. discriminate.
Defined.

Lemma do_reverse_positional_witness :
  (PyStr.words "48 2" = ["48"; "2"]
   /\ do_reverse (Some "48 2")
      = Run (Call_reverse 48%Z 2%Z :: (reverse_print <$> reverse 48%Z 2%Z))
            (Returns tt))
  /\ (not_two_floats "a b"
      /\ do_reverse (Some "a b") = Run [] (Raises ValueError)).
Proof.
  split.
  - split; [reflexivity|].
    exact (proj1 (do_reverse_positional "48 2") "48" "2" 48%Z 2%Z
             eq_refl eq_refl eq_refl).
  - assert (Hbad : not_two_floats "a b") by (by left).
    split; [exact Hbad|].
    exact (proj1 (proj2 (do_reverse_positional "a b")) Hbad).
Defined.


Lemma do_dbkey_by_type_witness :
  (lookup_key "d|9" = None
   /\ do_dbkey (Some "d|9")
      = Run [DB_type "d|9"; Print ["type:"; magenta (PStr "none")];
             Print ["value:"; white (PStr "Unsupported type none")]]
            (Returns tt))
  /\ (lookup_key "p|lilas" = Some (VSet ["rue"; "des"])
      /\ do_dbkey (Some "p|lilas")
         = Run [DB_type "p|lilas"; DB_smembers "p|lilas";
                Print ["type:"; magenta (PStr "set")];
                Print ["value:"; white (PSet (PBytes <$> ["rue"; "des"]))]]
               (Returns tt)).
Proof.
  split.
  - split; [reflexivity|].
    exact (proj1 (do_dbkey_by_type "d|9") eq_refl).
  - split; [reflexivity|].
    exact (proj1 (proj2 (proj2 (do_dbkey_by_type "p|lilas"))) _ eq_refl).
Defined.

Lemma do_pair_sorted_witness :
  preprocess_query (Some "Lilas") = ["lilas"]
  /\ lookup_key (pair_key "lilas") = Some (VSet ["rue"; "des"])
  /\ sort ["rue"; "des"] = ["des"; "rue"]
  /\ do_pair (Some "Lilas")
     = Run [Call_preprocess_query (Some "Lilas"); DB_smembers (pair_key "lilas");
            Print [white (PList (PStr <$> sort ["rue"; "des"]))];
            Print [magenta (PStr ("(Total: "
                     +:+ str (PInt (Z.of_nat (length ["rue"; "des"])))
                     +:+ ")"))]] (Returns tt)
  /\ (preprocess_query (Some "rue") = ["rue"]
      /\ lookup_key (pair_key "rue") = None
      /\ do_pair (Some "rue")
         = Run [Call_preprocess_query (Some "rue"); DB_smembers (pair_key "rue");
                Print [white (PList [])];
                Print [magenta (PStr ("(Total: " +:+ str (PInt 0) +:+ ")"))]]
               (Returns tt)).
Proof.
  split; [reflexivity|]. split; [reflexivity|]. split; [reflexivity|]. split.
  - exact (proj1 (proj1 (do_pair_sorted (Some "Lilas") "lilas" [] eq_refl)
                    ["rue"; "des"] eq_refl)).
  - split; [reflexivity|]. split; [reflexivity|].
    exact (proj2 (do_pair_sorted (Some "rue") "rue" [] eq_refl) eq_refl).
Defined.

Lemma commands_use_first_token_only_witness :
  preprocess_query (Some "lilas") = ["lilas"]
  /\ preprocess_query (Some "Lilas rue") = ["lilas"; "rue"]
  /\ Forall (fun fx : method =>
               drop 1 (trace (fx (Some "lilas")))
               = drop 1 (trace (fx (Some "Lilas rue")))
               /\ outcome (fx (Some "lilas")) = outcome (fx (Some "Lilas rue")))
            [do_frequency; do_autocomplete; do_bestscore; do_pair].
Proof.
  split; [reflexivity|]. split; [reflexivity|].
  exact (commands_use_first_token_only (Some "lilas") (Some "Lilas rue")
           "lilas" [] ["rue"] eq_refl eq_refl).
Defined.

Lemma do_tokenize_line_witness :
  preprocess_query (Some "Rue des  Lilas") = ["rue"; "des"; "lilas"]
  /\ Forall (fun t => is_word t = true) (preprocess_query (Some "Rue des  Lilas"))
  /\ PyStr.words (PyStr.join " " (preprocess_query (Some "Rue des  Lilas")))
     = preprocess_query (Some "Rue des  Lilas").
Proof.
  assert (Hwords : Forall (fun t => is_word t = true)
                     (preprocess_query (Some "Rue des  Lilas")))
    by (repeat constructor).
  split; [reflexivity|]. split; [exact Hwords|].
  exact (proj2 (do_tokenize_line (Some "Rue des  Lilas")) Hwords).
Defined.

Lemma loop_ends_witness :
  (outcome (loop [Line "TOKENIZE a"; Interrupt]) = Returns tt
   /\ last (trace (loop [Line "TOKENIZE a"; Interrupt])) = Some farewell_print)
  /\ (outcome (loop [Line "INDEX 9"]) = Raises KeyError
      /\ KeyError ≠ KeyboardInterrupt /\ KeyError ≠ EOFError)
  /\ (outcome (__call__ []) = Returns tt
      /\ last (trace (__call__ [])) = Some farewell_print).
Proof.
  split; [|split].
  - split; [reflexivity|].
    exact (proj1 (loop_ends [Line "TOKENIZE a"; Interrupt]) eq_refl).
  - split; [reflexivity|].
    exact (proj1 (proj2 (loop_ends [Line "INDEX 9"])) KeyError eq_refl).
  - split; [reflexivity|].
    exact (proj1 (proj2 (proj2 (loop_ends []))) eq_refl).
Defined.

Lemma loop_reads_no_further_witness :
  loop ([Line "TOKENIZE a"] ++ Interrupt :: [Line "HELP"])
  = loop [Line "TOKENIZE a"]
  /\ (outcome (handle_command "REVERSE a b") = Raises ValueError
      /\ loop ([Line "HELP"] ++ Line "REVERSE a b" :: [Line "HELP"])
         = loop ([Line "HELP"] ++ [Line "REVERSE a b"])).
Proof.
  split.
  - exact (proj1 (loop_reads_no_further [Line "TOKENIZE a"] [Line "HELP"])).
  - split; [reflexivity|].
    exact (proj2 (loop_reads_no_further [Line "HELP"] [Line "HELP"])
             "REVERSE a b" ValueError eq_refl).
Defined.

Lemma join_split_witness :
  PyStr.split "|" "rue des lilas|porte des lilas"
  = ["rue des lilas"; "porte des lilas"]
  /\ "rue des lilas|porte des lilas"
     = "rue des lilas" +:+ "|" +:+ "porte des lilas".
Proof.
  split; [reflexivity|].
  exact (proj2 (proj2 (join_split "|" EmptyString
                         "rue des lilas|porte des lilas")) _ _ eq_refl).
Defined.

End RunsMore.

Section RunsShelf.
Local Existing Instance Demo.numbers.

Lemma shelf_statistics (s : Store) :
  server_info s = Shelf.statistics
  \/ server_info s
     = Shelf.statistics ++ [("db0", PDict [(PStr "keys", PInt 2)])] ->
  Forall (fun key => is_Some (assoc key (server_info s))) dbinfo_keys.
Proof. intros [->| ->]; repeat constructor; by eexists. Defined.

Lemma do_dbinfo_lines_witness :
  (assoc "db0" (server_info Shelf.empty_store) = None
   /\ @do_dbinfo _ (Shelf.on Shelf.empty_store) None
      = Run (DB_info
             :: (@dbinfo_print _ (Shelf.on Shelf.empty_store)
                   Shelf.statistics <$> dbinfo_keys))
            (Raises KeyError))
  /\ (assoc "db0" (server_info Shelf.store)
      = Some (PDict [(PStr "keys", PInt 2)])
      /\ @do_dbinfo _ (Shelf.on Shelf.store) None
         = Run (DB_info
                :: (@dbinfo_print _ (Shelf.on Shelf.store)
                      (server_info Shelf.store) <$> dbinfo_keys)
                ++ [Print [@white _ (Shelf.on Shelf.store) (PStr "nb keys")
                           +:+ ": "
                           +:+ @blue _ (Shelf.on Shelf.store) (PInt 2)]])
               (Returns tt)).
Proof.
  split.
  - split; [reflexivity|].
    exact (proj1 (@do_dbinfo_lines _ (Shelf.on Shelf.empty_store) None
                    (shelf_statistics Shelf.empty_store (or_introl eq_refl)))
             eq_refl).
  - split; [reflexivity|].
    exact (proj2 (@do_dbinfo_lines _ (Shelf.on Shelf.store) None
                    (shelf_statistics Shelf.store (or_intror eq_refl)))
             _ _ eq_refl eq_refl).
Defined.

End RunsShelf.

Section RunsShelfIndex.
Local Existing Instance Demo.numbers.
Local Existing Instance Shelf.collaborators.

Lemma do_autocomplete_completions_witness :
  (preprocess_query (Some "Lilas") = ["lilas"]
   /\ Forall2 (fun key c => completion_of key = Some c)
              (autocomplete_keys "lilas") ["lilas"; "lilac"]
   /\ do_autocomplete (Some "Lilas")
      = Run [Call_preprocess_query (Some "Lilas"); Call_autocomplete "lilas";
             Print [white (PList (PStr <$> ["lilas"; "lilac"]))];
             Print [magenta (PStr ("(" +:+ str (PInt (Z.of_nat
                      (length (autocomplete_keys "lilas")))) +:+ " elements)"))]]
            (Returns tt))
  /\ (preprocess_query (Some "rue") = ["rue"]
      /\ (exists key, key ∈ autocomplete_keys "rue" /\ PyStr.count "|" key = 0)
      /\ do_autocomplete (Some "rue")
         = Run [Call_preprocess_query (Some "rue"); Call_autocomplete "rue"]
               (Raises IndexError)).
Proof.
  split.
  - assert (Hshown : Forall2 (fun key c => completion_of key = Some c)
                       (autocomplete_keys "lilas") ["lilas"; "lilac"])
      by (repeat constructor).
    split; [reflexivity|]. split; [exact Hshown|].
    exact (proj1 (do_autocomplete_completions (Some "Lilas") "lilas" [] eq_refl)
             _ Hshown).
  - assert (Hbare : exists key, key ∈ autocomplete_keys "rue"
                      /\ PyStr.count "|" key = 0).
    { exists "lil". split; [repeat constructor|reflexivity]. }
    split; [reflexivity|]. split; [exact Hbare|].
    exact (proj2 (do_autocomplete_completions (Some "rue") "rue" [] eq_refl)
             Hbare).
Defined.

Lemma shelf_token_keys : token_keys_hold_sorted_sets.
Proof.
  intros token. unfold posting_list, lookup_key, token_key; cbn.
  change ("w|" +:+ token) with (String "w" (String "|" token)).
  unfold Shelf.store; cbn [keyspace list_to_map foldr uncurry].
  rewrite !lookup_insert_ne by discriminate.
  rewrite lookup_empty. by eexists.
Defined.

Lemma do_index_stops_at_missing_field_witness :
  token_keys_hold_sorted_sets
  /\ (lookup_key (document_key (Some "9")) = None
      /\ do_index (Some "9")
         = Run [DB_hgetall (document_key (Some "9"))] (Raises KeyError))
  /\ (document (Some "2") = Some [("postcode", "75001"); ("city", "Paris")]
      /\ do_index (Some "2")
         = Run [DB_hgetall (document_key (Some "2"))] (Raises KeyError))
  /\ (document (Some "3") = Some [("name", "rue des Lilas"); ("city", "Paris")]
      /\ do_index (Some "3")
         = Run (DB_hgetall (document_key (Some "3"))
                :: field_events (Some "3") "rue des Lilas") (Raises KeyError)).
Proof.
  split; [exact shelf_token_keys|]. split; [|split].
  - split; [reflexivity|].
    exact (proj1 (do_index_stops_at_missing_field (Some "9") shelf_token_keys)
             eq_refl).
  - split; [reflexivity|].
    exact (proj1 (proj2 (do_index_stops_at_missing_field (Some "2")
                           shelf_token_keys)) _ eq_refl eq_refl).
  - split; [reflexivity|].
    exact (proj2 (proj2 (do_index_stops_at_missing_field (Some "3")
                           shelf_token_keys)) _ _ eq_refl eq_refl eq_refl).
Defined.

End RunsShelfIndex.

Section RunsFixtures.

Lemma fixture_kwargs_distinct :
  NoDup (keys [("type", "city"); ("skip_index", "yes")]).
Proof.
  cbn. repeat (apply NoDup_cons; split);
    [..|apply NoDup_nil_2]; rewrite ?not_elem_of_cons;
    repeat split; try apply not_elem_of_nil; discriminate.
Defined.

Lemma factory_fields_witness :
  NoDup (keys [("type", "city"); ("skip_index", "yes")])
  /\ assoc "skip_index"
       (Conftest.factory string Shelf.truthy id "0.0" "c0ffee"
          [("type", "city"); ("skip_index", "yes")]).1 = None
  /\ assoc "type"
       (Conftest.factory string Shelf.truthy id "0.0" "c0ffee"
          [("type", "city"); ("skip_index", "yes")]).1 = Some "city"
  /\ assoc "name"
       (Conftest.factory string Shelf.truthy id "0.0" "c0ffee"
          [("type", "city"); ("skip_index", "yes")]).1 = Some "ellington".
Proof.
  split; [exact fixture_kwargs_distinct|]. split; [|split].
  - exact (proj1 (factory_fields string Shelf.truthy id "0.0" "c0ffee" _ "type"
                    fixture_kwargs_distinct)).
  - refine (proj2 (factory_fields string Shelf.truthy id "0.0" "c0ffee" _ "type"
                     fixture_kwargs_distinct) _). discriminate.
  - refine (proj2 (factory_fields string Shelf.truthy id "0.0" "c0ffee" _ "name"
                     fixture_kwargs_distinct) _). discriminate.
Defined.

Lemma factory_indexes_once_witness :
  NoDup (keys [("type", "city"); ("skip_index", "yes")])
  /\ (Conftest.factory string Shelf.truthy id "0.0" "c0ffee"
        [("type", "city"); ("skip_index", "yes")]).2 = []
  /\ (Conftest.factory string Shelf.truthy id "0.0" "c0ffee" []).2
     = [(Conftest.factory string Shelf.truthy id "0.0" "c0ffee" []).1].
Proof.
  split; [exact fixture_kwargs_distinct|]. split.
  - exact (factory_indexes_once string Shelf.truthy id "0.0" "c0ffee" _
             fixture_kwargs_distinct).
  - exact (factory_indexes_once string Shelf.truthy id "0.0" "c0ffee" []
             (NoDup_nil_2 (A:=string))).
Defined.

Lemma DummyDoc_update_fields_witness :
  NoDup (keys [("type", "city"); ("skip_index", "yes")])
  /\ assoc "type"
       (Conftest.DummyDoc_update string
          (Conftest.defaults string id "0.0" "c0ffee")
          [("type", "city"); ("skip_index", "yes")]).1 = Some "city"
  /\ keys (Conftest.defaults string id "0.0" "c0ffee")
     `prefix_of`
     keys (Conftest.DummyDoc_update string
             (Conftest.defaults string id "0.0" "c0ffee")
             [("type", "city"); ("skip_index", "yes")]).1.
Proof.
  split; [exact fixture_kwargs_distinct|]. split.
  - exact (proj1 (DummyDoc_update_fields string
                    (Conftest.defaults string id "0.0" "c0ffee") _ "type"
                    fixture_kwargs_distinct)).
  - exact (proj1 (proj2 (DummyDoc_update_fields string
                           (Conftest.defaults string id "0.0" "c0ffee") _ "type"
                           fixture_kwargs_distinct))).
Defined.

End RunsFixtures.
